(** * ESPHome config flow and HomeKit light accessory: a shallow embedding

    The first part embeds [homeassistant/components/esphome/config_flow.py]
    (class [EsphomeFlowHandler]) as state-passing functions over the flow
    handler and the host's config-entry store.  The second part models the
    value mappings of the HomeKit light accessory that
    [tests/components/homekit/test_type_lights.py] exercises. *)

From Stdlib Require Import ZArith QArith String Ascii List Lia.
From stdpp Require Import base option list gmap strings pretty.

Local Open Scope Z_scope.

(** ** Python values and the few builtins the flow relies on *)

Module Py.

(** The dynamically typed values that travel through the flow: [None],
    [str] and [int]. *)
Inductive pyval : Type :=
  | VNone
  | VStr (s : string)
  | VInt (z : Z).

#[global] Instance pyval_eq_dec : EqDecision pyval.
Proof. solve_decision. Defined.

(** Python truthiness: [None], [""] and [0] are falsy. *)
Definition truthy (v : pyval) : bool :=
  match v with
  | VNone => false
  | VStr s => negb (String.eqb s EmptyString)
  | VInt z => negb (z =? 0)
  end.

(** [a or b]. *)
Definition py_or (a b : pyval) : pyval := if truthy a then a else b.

(** [x == y] on these values is structural equality. *)
Definition py_eq (a b : pyval) : bool := bool_decide (a = b).

(** [x in [a; b; ...]]. *)
Definition py_in_list (x : pyval) (l : list pyval) : bool :=
  existsb (py_eq x) l.

(** [s[:-k]] for [k >= 1]: every character but the last [k]; the empty
    string when [s] is not longer than [k].  Subtraction on [nat] stops at
    zero exactly where the Python slice does. *)
Definition slice_to_neg (k : nat) (s : string) : string :=
  String.substring 0 (String.length s - k) s.

(** [needle in hay] on strings. *)
Fixpoint str_contains (needle hay : string) : bool :=
  String.prefix needle hay ||
  match hay with
  | EmptyString => false
  | String _ rest => str_contains needle rest
  end.

End Py.

Import Py.

(** ** The ESPHome config flow *)

Module Esphome.

Definition CONF_HOST : string := "host".
Definition CONF_NAME : string := "name".
Definition CONF_PASSWORD : string := "password".
Definition CONF_PORT : string := "port".

(** [aioesphomeapi.DeviceInfo], the two attributes the flow reads. *)
Record DeviceInfo : Type := mkDeviceInfo {
  name : string;
  uses_password : bool
}.

(** A persisted [ConfigEntry]. *)
Record ConfigEntry : Type := mkConfigEntry {
  entry_id : string;
  unique_id : pyval;
  data : gmap string pyval
}.

(** [RuntimeEntryData] of a loaded entry. *)
Record RuntimeEntryData : Type := mkRuntimeEntryData {
  device_info : option DeviceInfo
}.

(** The part of [hass] the flow touches: the config entries of this domain
    in iteration order, and the integration's [DomainData] store.  An entry
    object is identified by its position in the list, so updating an entry
    in place is a list update at that position. *)
Record HomeAssistant : Type := mkHass {
  config_entries : list ConfigEntry;
  domain_data : gmap string RuntimeEntryData
}.

(** [self.context]. *)
Record FlowContext : Type := mkContext {
  ctx_name : pyval;
  ctx_title_placeholders : option (gmap string pyval);
  ctx_unique_id : pyval
}.

(** The handler's own attributes. *)
Record EsphomeFlowHandler : Type := mkHandler {
  _host : pyval;
  _port : pyval;
  _password : pyval;
  context : FlowContext
}.

(** [__init__]. *)
Definition init_context : FlowContext :=
  {| ctx_name := VNone; ctx_title_placeholders := None; ctx_unique_id := VNone |}.

Definition __init__ : EsphomeFlowHandler :=
  {| _host := VNone; _port := VNone; _password := VNone; context := init_context |}.

(** The zeroconf discovery payload. *)
Record DiscoveryInfo : Type := mkDiscoveryInfo {
  hostname : string;
  properties : gmap string string;
  host : string;
  port : Z
}.

(** One field of a voluptuous schema: marker, key, default. *)
Inductive SchemaField : Type :=
  | Required (key : string) (default : option pyval)
  | Optional (key : string) (default : option pyval).

(** What a step hands back to the flow manager. *)
Inductive FlowResult : Type :=
  | Form (step_id : string) (data_schema : option (list SchemaField))
         (errors : gmap string string)
         (description_placeholders : option (gmap string pyval))
  | CreateEntry (title : pyval) (entry_data : gmap string pyval)
  | Abort (reason : string).

(** Exceptions a step can leave through. *)
Inductive Exn : Type :=
  | AbortFlow (reason : string)
  | AssertionError
  | KeyError (key : string).

Inductive Outcome (A : Type) : Type :=
  | Ret (a : A)
  | Raise (e : Exn).
Arguments Ret {A} a.
Arguments Raise {A} e.

(** The state a step runs in. *)
Record World : Type := mkWorld {
  flow : EsphomeFlowHandler;
  hass : HomeAssistant
}.

(** State and exceptions: the state survives a raise, as a mutated Python
    object does. *)
Definition M (A : Type) : Type := World -> Outcome A * World.

Definition ret {A} (a : A) : M A := fun w => (Ret a, w).
Definition raise {A} (e : Exn) : M A := fun w => (Raise e, w).
Definition bind {A B} (m : M A) (k : A -> M B) : M B :=
  fun w => match m w with
           | (Ret a, w') => k a w'
           | (Raise e, w') => (Raise e, w')
           end.
Definition get_flow : M EsphomeFlowHandler := fun w => (Ret (flow w), w).
Definition put_flow (f : EsphomeFlowHandler) : M unit :=
  fun w => (Ret tt, {| flow := f; hass := hass w |}).
Definition get_hass : M HomeAssistant := fun w => (Ret (hass w), w).
Definition put_hass (h : HomeAssistant) : M unit :=
  fun w => (Ret tt, {| flow := flow w; hass := h |}).
Definition py_assert (b : bool) : M unit :=
  if b then ret tt else raise AssertionError.

Declare Scope flow_scope.
Delimit Scope flow_scope with flow.
Notation "x <- m ;; k" := (bind m (fun x => k))
  (at level 100, m at next level, right associativity) : flow_scope.
Notation "m ;;; k" := (bind m (fun _ => k))
  (at level 100, right associativity) : flow_scope.
Local Open Scope flow_scope.

(** Modelled from the spec: the flow manager belongs to the host
    framework.  It turns an [AbortFlow] that escapes a step into an abort
    result with the same reason. *)
Definition handle_step (m : M FlowResult) : M FlowResult :=
  fun w => match m w with
           | (Raise (AbortFlow r), w') => (Ret (Abort r), w')
           | other => other
           end.

(** *** Attribute accessors of the handler *)

Definition set_host (v : pyval) (f : EsphomeFlowHandler) : EsphomeFlowHandler :=
  {| _host := v; _port := _port f; _password := _password f; context := context f |}.
Definition set_port (v : pyval) (f : EsphomeFlowHandler) : EsphomeFlowHandler :=
  {| _host := _host f; _port := v; _password := _password f; context := context f |}.
Definition set_password (v : pyval) (f : EsphomeFlowHandler) : EsphomeFlowHandler :=
  {| _host := _host f; _port := _port f; _password := v; context := context f |}.
Definition set_context (c : FlowContext) (f : EsphomeFlowHandler) : EsphomeFlowHandler :=
  {| _host := _host f; _port := _port f; _password := _password f; context := c |}.

(** The [_name] property: [self.context.get(CONF_NAME)]. *)
Definition _name (f : EsphomeFlowHandler) : pyval := ctx_name (context f).

(** The [_name] setter also refreshes the title placeholders. *)
Definition _name_setter (value : pyval) (f : EsphomeFlowHandler) : EsphomeFlowHandler :=
  set_context {| ctx_name := value;
                 ctx_title_placeholders := Some {[ "name" := value ]};
                 ctx_unique_id := ctx_unique_id (context f) |} f.

(** *** Collaborators that live outside this file's source *)

(** The outcome of talking to a device.  [device_info_at h p] is what
    [cli.connect()] followed by [cli.device_info()] gives for host [h] and
    port [p]: the device info, or the message of the [APIConnectionError]
    raised.  [login_at h p pw] is the message of the [APIConnectionError]
    that [cli.connect(login=True)] raises with password [pw], if any. *)
Record APIClient : Type := mkAPIClient {
  device_info_at : pyval -> pyval -> string + DeviceInfo;
  login_at : pyval -> pyval -> pyval -> option string
}.

(** Modelled from the spec: [ConfigFlow._async_current_entries] belongs to
    the host framework; it lists the entries of this domain. *)
Definition _async_current_entries (h : HomeAssistant) : list ConfigEntry :=
  config_entries h.

(** The fields of an entry after an update; an argument left out keeps the
    field. *)
Definition update_entry (new_data : option (gmap string pyval))
    (new_unique_id : option pyval) (entry : ConfigEntry) : ConfigEntry :=
  {| entry_id := entry_id entry;
     unique_id := default (unique_id entry) new_unique_id;
     data := default (data entry) new_data |}.

(** Modelled from the spec: [hass.config_entries.async_update_entry]
    belongs to the host framework.  [async_update_entry i data unique_id]
    is the call on the entry object at position [i]. *)
Definition async_update_entry (i : nat) (new_data : option (gmap string pyval))
    (new_unique_id : option pyval) : M unit :=
  h <- get_hass ;;
  put_hass {| config_entries :=
                alter (update_entry new_data new_unique_id) i (config_entries h);
              domain_data := domain_data h |}.

(** Modelled from the spec: [DomainData] of the integration's package is
    not part of the source at hand.  The store maps the id of each loaded
    entry to its runtime data, which is how the flow matches "by device
    name". *)
Definition is_entry_loaded (h : HomeAssistant) (entry : ConfigEntry) : bool :=
  bool_decide (is_Some (domain_data h !! entry_id entry)).

Definition get_entry_data (h : HomeAssistant) (entry : ConfigEntry)
  : option RuntimeEntryData :=
  domain_data h !! entry_id entry.

(** Modelled from the spec: [ConfigFlow.async_set_unique_id] belongs to the
    host framework.  It records the identifier in the flow's context; other
    flows in progress are not part of the model. *)
Definition async_set_unique_id (uid : string) : M unit :=
  f <- get_flow ;;
  put_flow (set_context {| ctx_name := ctx_name (context f);
                           ctx_title_placeholders := ctx_title_placeholders (context f);
                           ctx_unique_id := VStr uid |} f).

(** Modelled from the spec: [ConfigFlow._abort_if_unique_id_configured]
    belongs to the host framework.  It walks the current entries; at the
    first one whose unique id equals the flow's it merges [updates] into
    that entry's data and raises [AbortFlow("already_configured")]. *)
Fixpoint abort_if_unique_id_loop (uid : pyval) (updates : gmap string pyval)
    (i : nat) (entries : list ConfigEntry) : M unit :=
  match entries with
  | [] => ret tt
  | entry :: rest =>
      if py_eq (unique_id entry) uid then
        async_update_entry i (Some (updates ∪ data entry)) None ;;;
        raise (AbortFlow "already_configured")
      else abort_if_unique_id_loop uid updates (S i) rest
  end.

Definition _abort_if_unique_id_configured (updates : gmap string pyval) : M unit :=
  f <- get_flow ;;
  match ctx_unique_id (context f) with
  | VNone => ret tt
  | uid =>
      h <- get_hass ;;
      abort_if_unique_id_loop uid updates 0 (_async_current_entries h)
  end.

Section Flow.

Variable api : APIClient.

(** *** The steps of [EsphomeFlowHandler] *)

Definition subscript (d : gmap string pyval) (key : string) : M pyval :=
  match d !! key with
  | Some v => ret v
  | None => raise (KeyError key)
  end.

Definition errors_of (error : option string) : gmap string string :=
  match error with
  | Some e => {[ "base" := e ]}
  | None => ∅
  end.

(** The schema of the user form: a required host, without default while
    [self._host] is falsy, and an optional port defaulting to
    [self._port or 6053]. *)
Definition user_schema (f : EsphomeFlowHandler) : list SchemaField :=
  [ Required CONF_HOST (if truthy (_host f) then Some (_host f) else None);
    Optional CONF_PORT (Some (py_or (_port f) (VInt 6053))) ].

(** [_async_step_user_base] below its first [if]: the user form. *)
Definition user_form (error : option string) : M FlowResult :=
  f <- get_flow ;;
  ret (Form "user" (Some (user_schema f)) (errors_of error) None).

Definition _set_user_input (user_input : option (gmap string pyval)) : M unit :=
  match user_input with
  | None => ret tt
  | Some ui =>
      h <- subscript ui CONF_HOST ;;
      f <- get_flow ;;
      put_flow (set_host h f) ;;;
      p <- subscript ui CONF_PORT ;;
      f <- get_flow ;;
      put_flow (set_port p f)
  end.

Definition is_not_none (v : pyval) : bool :=
  match v with VNone => false | _ => true end.

Definition fetch_device_info : M (option string * option DeviceInfo) :=
  f <- get_flow ;;
  py_assert (is_not_none (_host f)) ;;;
  py_assert (is_not_none (_port f)) ;;;
  match device_info_at api (_host f) (_port f) with
  | inl err =>
      if str_contains "resolving" err
      then ret (Some "resolve_error"%string, None)
      else ret (Some "connection_error"%string, None)
  | inr info => ret (None, Some info)
  end.

Definition try_login : M (option string) :=
  f <- get_flow ;;
  py_assert (is_not_none (_host f)) ;;;
  py_assert (is_not_none (_port f)) ;;;
  match login_at api (_host f) (_port f) (_password f) with
  | Some _ => ret (Some "invalid_auth"%string)
  | None => ret None
  end.

(** The [data] dict literal of [_async_get_entry]. *)
Definition entry_data_of (f : EsphomeFlowHandler) : gmap string pyval :=
  <[CONF_HOST := _host f]>
    (<[CONF_PORT := _port f]>
       (<[CONF_PASSWORD := py_or (_password f) (VStr "")]> ∅)).

Definition _async_get_entry : M FlowResult :=
  f <- get_flow ;;
  py_assert (is_not_none (_name f)) ;;;
  ret (CreateEntry (_name f) (entry_data_of f)).

(** [async_step_authenticate] below its first [if]: the password form. *)
Definition authenticate_form (error : option string) : M FlowResult :=
  f <- get_flow ;;
  ret (Form "authenticate" (Some [Required "password" None]) (errors_of error)
         (Some {[ "name" := _name f ]})).

Definition str_truthy (error : option string) : bool :=
  match error with
  | Some e => negb (String.eqb e EmptyString)
  | None => false
  end.

Definition async_step_authenticate (user_input : option (gmap string pyval))
    (error : option string) : M FlowResult :=
  match user_input with
  | Some ui =>
      pw <- subscript ui CONF_PASSWORD ;;
      f <- get_flow ;;
      put_flow (set_password pw f) ;;;
      error <- try_login ;;
      if str_truthy error then authenticate_form error else _async_get_entry
  | None => authenticate_form error
  end.

Definition _async_authenticate_or_add (user_input : option (gmap string pyval))
  : M FlowResult :=
  _set_user_input user_input ;;;
  r <- fetch_device_info ;;
  match r with
  | (Some error, _) => user_form (Some error)
  | (None, None) => raise AssertionError
  | (None, Some info) =>
      f <- get_flow ;;
      put_flow (_name_setter (VStr (name info)) f) ;;;
      if uses_password info
      then async_step_authenticate None None
      else _async_get_entry
  end.

Definition _async_step_user_base (user_input : option (gmap string pyval))
    (error : option string) : M FlowResult :=
  match user_input with
  | Some ui => _async_authenticate_or_add (Some ui)
  | None => user_form error
  end.

Definition async_step_user (user_input : option (gmap string pyval)) : M FlowResult :=
  _async_step_user_base user_input None.

Definition async_step_discovery_confirm (user_input : option (gmap string pyval))
  : M FlowResult :=
  match user_input with
  | Some _ => _async_authenticate_or_add None
  | None =>
      f <- get_flow ;;
      ret (Form "discovery_confirm" None ∅ (Some {[ "name" := _name f ]}))
  end.

(** *** Zeroconf discovery *)

(** The node name of a discovered host name such as [livingroom.local.] *)
Definition local_name_of (discovery_info : DiscoveryInfo) : string :=
  slice_to_neg 1 (hostname discovery_info).

Definition node_name_of (discovery_info : DiscoveryInfo) : string :=
  slice_to_neg (String.length ".local") (local_name_of discovery_info).

Definition address_of (discovery_info : DiscoveryInfo) : string :=
  default (local_name_of discovery_info) (properties discovery_info !! "address").

(** The body of the [for] loop up to [if already_configured]: does this
    entry stand for the discovered device? *)
Definition already_configured (h : HomeAssistant) (discovery_info : DiscoveryInfo)
    (entry : ConfigEntry) : bool :=
  let by_name :=
    if is_entry_loaded h entry then
      match get_entry_data h entry with
      | Some {| device_info := Some info |} =>
          bool_decide (name info = node_name_of discovery_info)
      | _ => false
      end
    else false in
  match data entry !! CONF_HOST with
  | Some configured_host =>
      if py_in_list configured_host
           [VStr (address_of discovery_info); VStr (host discovery_info)]
      then true else by_name
  | None => by_name
  end.

(** The [for entry in self._async_current_entries()] loop; [i] is the
    position of the entry at the head of [entries].  [Some r] is the
    [return] inside the loop, [None] means the loop ran to its end. *)
Fixpoint zeroconf_entries_loop (discovery_info : DiscoveryInfo) (i : nat)
    (entries : list ConfigEntry) : M (option FlowResult) :=
  match entries with
  | [] => ret None
  | entry :: rest =>
      h <- get_hass ;;
      if already_configured h discovery_info entry then
        (if negb (truthy (unique_id entry)) then
           async_update_entry i
             (Some (<[CONF_HOST := VStr (host discovery_info)]> (data entry)))
             (Some (VStr (node_name_of discovery_info)))
         else ret tt) ;;;
        ret (Some (Abort "already_configured"))
      else zeroconf_entries_loop discovery_info (S i) rest
  end.

Definition async_step_zeroconf (discovery_info : DiscoveryInfo) : M FlowResult :=
  let node_name := node_name_of discovery_info in
  async_set_unique_id node_name ;;;
  _abort_if_unique_id_configured {[ CONF_HOST := VStr (host discovery_info) ]} ;;;
  h <- get_hass ;;
  r <- zeroconf_entries_loop discovery_info 0 (_async_current_entries h) ;;
  match r with
  | Some result => ret result
  | None =>
      f <- get_flow ;;
      put_flow (set_host (VStr (host discovery_info)) f) ;;;
      f <- get_flow ;;
      put_flow (set_port (VInt (port discovery_info)) f) ;;;
      f <- get_flow ;;
      put_flow (_name_setter (VStr node_name) f) ;;;
      async_step_discovery_confirm None
  end.

End Flow.

(** *** What the two entry loops compute, as functions on the entry list *)

(** The world with the entry list replaced. *)
Definition with_entries (w : World) (entries : list ConfigEntry) : World :=
  {| flow := flow w;
     hass := {| config_entries := entries; domain_data := domain_data (hass w) |} |}.

(** The world with the flow handler replaced. *)
Definition with_flow (w : World) (f : EsphomeFlowHandler) : World :=
  {| flow := f; hass := hass w |}.

(** The entry as the backwards-compatibility branch of the zeroconf loop
    leaves it. *)
Definition backfill (discovery_info : DiscoveryInfo) (entry : ConfigEntry)
  : ConfigEntry :=
  if negb (truthy (unique_id entry)) then
    update_entry (Some (<[CONF_HOST := VStr (host discovery_info)]> (data entry)))
      (Some (VStr (node_name_of discovery_info))) entry
  else entry.

(** The entry list after the zeroconf loop returned from inside, [None]
    when the loop runs to its end. *)
Fixpoint backfill_first (h : HomeAssistant) (discovery_info : DiscoveryInfo)
    (entries : list ConfigEntry) : option (list ConfigEntry) :=
  match entries with
  | [] => None
  | entry :: rest =>
      if already_configured h discovery_info entry
      then Some (backfill discovery_info entry :: rest)
      else cons entry <$> backfill_first h discovery_info rest
  end.

(** The entry list after the unique-id check raised, [None] when it does
    not raise. *)
Fixpoint merge_first (uid : pyval) (updates : gmap string pyval)
    (entries : list ConfigEntry) : option (list ConfigEntry) :=
  match entries with
  | [] => None
  | entry :: rest =>
      if py_eq (unique_id entry) uid
      then Some (update_entry (Some (updates ∪ data entry)) None entry :: rest)
      else cons entry <$> merge_first uid updates rest
  end.

(** The handler once zeroconf discovery has recorded the unique id, and once
    it has taken over host, port and name of the discovered node. *)
Definition with_unique_id (uid : string) (f : EsphomeFlowHandler)
  : EsphomeFlowHandler :=
  set_context {| ctx_name := ctx_name (context f);
                 ctx_title_placeholders := ctx_title_placeholders (context f);
                 ctx_unique_id := VStr uid |} f.

Definition discovered (discovery_info : DiscoveryInfo) (f : EsphomeFlowHandler)
  : EsphomeFlowHandler :=
  _name_setter (VStr (node_name_of discovery_info))
    (set_port (VInt (port discovery_info))
       (set_host (VStr (host discovery_info))
          (with_unique_id (node_name_of discovery_info) f))).

(** The steps the flow manager can invoke on the handler, and the
    invocation itself. *)
Inductive Step : Type :=
  | StepUser (user_input : option (gmap string pyval))
  | StepZeroconf (discovery_info : DiscoveryInfo)
  | StepDiscoveryConfirm (user_input : option (gmap string pyval))
  | StepAuthenticate (user_input : option (gmap string pyval)).

Definition run_step (api : APIClient) (s : Step) : M FlowResult :=
  handle_step
    match s with
    | StepUser user_input => async_step_user api user_input
    | StepZeroconf discovery_info => async_step_zeroconf api discovery_info
    | StepDiscoveryConfirm user_input => async_step_discovery_confirm api user_input
    | StepAuthenticate user_input => async_step_authenticate api user_input None
    end.

(** The error category the wizard shows for a failed connection. *)
Definition error_category (message : string) : string :=
  if str_contains "resolving" message then "resolve_error" else "connection_error".

(** Host, port and name are known: what the authenticate step relies on. *)
Definition ready (w : World) : Prop :=
  _host (flow w) <> VNone /\ _port (flow w) <> VNone /\ _name (flow w) <> VNone.

(** A small network for worked examples: the node [livingroom] at
    192.168.1.5 asks for the password [secret], the node [kitchen] at
    192.168.1.6 asks for none; no other name resolves. *)
Definition example_api : APIClient :=
  {| device_info_at := fun h _ =>
       if py_eq h (VStr "192.168.1.5")
       then inr {| name := "livingroom"; uses_password := true |}
       else if py_eq h (VStr "192.168.1.6")
       then inr {| name := "kitchen"; uses_password := false |}
       else inl "Error resolving IP address"%string;
     login_at := fun _ _ pw =>
       if py_eq pw (VStr "secret") then None else Some "Invalid password"%string |}.

Definition example_discovery : DiscoveryInfo :=
  {| hostname := "livingroom.local.";
     properties := {[ "address" := "livingroom.local"%string ]};
     host := "192.168.1.5";
     port := 6053 |}.

Definition example_entry (id : string) (uid : pyval) (h : string) : ConfigEntry :=
  {| entry_id := id; unique_id := uid; data := {[ CONF_HOST := VStr h ]} |}.

Definition example_world (entries : list ConfigEntry) : World :=
  {| flow := __init__;
     hass := {| config_entries := entries; domain_data := ∅ |} |}.

(** The three ways the spec lets an entry stand for the discovered device. *)
Definition matches_address (discovery_info : DiscoveryInfo) (entry : ConfigEntry)
  : Prop :=
  ∃ a, properties discovery_info !! "address" = Some a
       ∧ data entry !! CONF_HOST = Some (VStr a).

Definition matches_host (discovery_info : DiscoveryInfo) (entry : ConfigEntry)
  : Prop :=
  data entry !! CONF_HOST = Some (VStr (host discovery_info)).

Definition matches_name (h : HomeAssistant) (discovery_info : DiscoveryInfo)
    (entry : ConfigEntry) : Prop :=
  ∃ info, domain_data h !! entry_id entry = Some {| device_info := Some info |}
          ∧ name info = node_name_of discovery_info.

Definition has_no_unique_id (entry : ConfigEntry) : Prop :=
  truthy (unique_id entry) = false.

End Esphome.

(** ** The HomeKit light accessory *)

Module HomekitLight.

(** Python's [round(x)]: the nearest integer, a tie going to the even
    neighbour.  Platform floats are idealised as exact rationals. *)
Definition py_round (q : Q) : Z :=
  let n := Qnum q in
  let d := Zpos (Qden q) in
  let f := n / d in
  match 2 * (n mod d) ?= d with
  | Lt => f
  | Gt => f + 1
  | Eq => if Z.even f then f else f + 1
  end.

(** Python's [int(x)]: truncation toward zero. *)
Definition py_int (q : Q) : Z := Z.quot (Qnum q) (Zpos (Qden q)).

(** The state of the light entity as the platform reports it. *)
Inductive EntityState : Type := STATE_ON | STATE_OFF | STATE_UNKNOWN.

Record LightState : Type := mkLightState {
  state : EntityState;
  ATTR_BRIGHTNESS : option Q;
  ATTR_HS_COLOR : option (Q * Q)
}.

(** The characteristic values of the accessory. *)
Record Light : Type := mkLight {
  char_on : Z;
  char_brightness : Z;
  char_hue : Z;
  char_saturation : Z
}.

Definition is_on (s : EntityState) : bool :=
  match s with STATE_ON => true | _ => false end.

(** Modelled from the spec: the accessory class [Light] of
    [homekit/type_lights.py] is not part of the source at hand, only its
    tests are.  A brightness level [b] of 0..255 is reported as
    [round(b / 255 * 100)], and a result of 0 becomes 1 while the device is
    on. *)
Definition brightness_pct (s : EntityState) (b : Q) : Z :=
  let brightness := py_round (b / 255 * 100)%Q in
  if (brightness =? 0) && is_on s then 1 else brightness.

(** Modelled from the spec: hue and saturation go through as the integers
    truncated from the platform's floats. *)
Definition hs_chars (hs : Q * Q) : Z * Z := (py_int (fst hs), py_int (snd hs)).

(** Modelled from the spec: the state update of the missing [Light] class,
    for the on, brightness, hue and saturation characteristics.  An
    attribute that is absent leaves its characteristic alone. *)
Definition async_update_state (new_state : LightState) (acc : Light) : Light :=
  let brightness :=
    match ATTR_BRIGHTNESS new_state with
    | Some b => brightness_pct (state new_state) b
    | None => char_brightness acc
    end in
  let '(hue, saturation) :=
    match ATTR_HS_COLOR new_state with
    | Some hs => hs_chars hs
    | None => (char_hue acc, char_saturation acc)
    end in
  {| char_on := if is_on (state new_state) then 1 else 0;
     char_brightness := brightness;
     char_hue := hue;
     char_saturation := saturation |}.

(** A batch of characteristic writes from the accessory protocol. *)
Record CharValues : Type := mkCharValues {
  CHAR_ON : option Z;
  CHAR_BRIGHTNESS : option Z;
  CHAR_HUE : option Z;
  CHAR_SATURATION : option Z;
  CHAR_COLOR_TEMPERATURE : option Z
}.

Inductive Service : Type := SERVICE_TURN_ON | SERVICE_TURN_OFF.

(** The service call the accessory dispatches, with the text of the event
    it logs. *)
Record ServiceCall : Type := mkServiceCall {
  service : Service;
  ATTR_BRIGHTNESS_PCT : option Z;
  ATTR_HS_COLOR_param : option (Z * Z);
  ATTR_COLOR_TEMP : option Z;
  ATTR_VALUE : string
}.

Definition str_of_Z (z : Z) : string := pretty z.

Fixpoint join (sep : string) (parts : list string) : string :=
  match parts with
  | [] => ""
  | [p] => p
  | p :: rest => p +:+ sep +:+ join sep rest
  end.

(** Modelled from the spec: the write handler of the missing [Light]
    class, after the service calls and event texts its tests record.  The
    call is [turn_on] unless the batch switches the light off or sets a
    brightness of 0; a brightness of 0 is never passed on as a
    percentage. *)
Definition set_chars (char_values : CharValues) : ServiceCall :=
  let off_by_state :=
    match CHAR_ON char_values with Some v => v =? 0 | None => false end in
  let off_by_brightness :=
    match CHAR_BRIGHTNESS char_values with Some v => v =? 0 | None => false end in
  let state_event :=
    match CHAR_ON char_values, off_by_brightness with
    | _, true => ["Set state to 0"%string]
    | Some v, false => ["Set state to " +:+ str_of_Z v]
    | None, false => []
    end in
  let brightness_event :=
    match CHAR_BRIGHTNESS char_values with
    | Some v => ["brightness at " +:+ str_of_Z v +:+ "%"]
    | None => []
    end in
  let temperature_event :=
    match CHAR_COLOR_TEMPERATURE char_values with
    | Some v => ["color temperature at " +:+ str_of_Z v]
    | None => []
    end in
  let color :=
    match CHAR_HUE char_values, CHAR_SATURATION char_values with
    | Some h, Some s => Some (h, s)
    | _, _ => None
    end in
  let color_event :=
    match color with
    | Some (h, s) =>
        ["set color at (" +:+ str_of_Z h +:+ ", " +:+ str_of_Z s +:+ ")"]
    | None => []
    end in
  {| service := if off_by_state || off_by_brightness
                then SERVICE_TURN_OFF else SERVICE_TURN_ON;
     ATTR_BRIGHTNESS_PCT :=
       match CHAR_BRIGHTNESS char_values with
       | Some v => if v =? 0 then None else Some v
       | None => None
       end;
     ATTR_HS_COLOR_param := color;
     ATTR_COLOR_TEMP := CHAR_COLOR_TEMPERATURE char_values;
     ATTR_VALUE :=
       join ", " (state_event ++ brightness_event ++ temperature_event
                  ++ color_event) |}.

End HomekitLight.

(** ** Invariants of the flow handler *)

Module EsphomeInvariants.

Import Esphome.

(** The title placeholders, once there are any, hold the flow's name under
    [name]; before that the flow has no name. *)
Definition placeholders_consistent (f : EsphomeFlowHandler) : Prop :=
  match ctx_title_placeholders (context f) with
  | None => ctx_name (context f) = VNone
  | Some placeholders => placeholders = {[ "name" := ctx_name (context f) ]}
  end.

(** The steps a user drives, as opposed to zeroconf discovery. *)
Definition is_user_driven (s : Step) : bool :=
  match s with
  | StepZeroconf _ => false
  | _ => true
  end.

(** Two more discoveries on the example network: the node [kitchen], which
    asks for no password, and a node whose address does not answer. *)
Definition example_discovery_kitchen : DiscoveryInfo :=
  {| hostname := "kitchen.local.";
     properties := ∅;
     host := "192.168.1.6";
     port := 6053 |}.

Definition example_discovery_lost : DiscoveryInfo :=
  {| hostname := "attic.local.";
     properties := ∅;
     host := "192.168.1.99";
     port := 6053 |}.

End EsphomeInvariants.

(** ** The MySensors test fixtures *)

Module MySensors.

(** What a fixture gives the test: a value, or the [KeyError] of a failed
    subscript. *)
Inductive Outcome (A : Type) : Type :=
  | Ok (a : A)
  | KeyError (key : Z).
Arguments Ok {A} a.
Arguments KeyError {A} key.

Section Fixtures.

(** [mysensors.sensor.Sensor] comes from the device library. *)
Variable Sensor : Type.

(** The [gateway_nodes] fixture: a fresh, empty dict that the other
    fixtures of a test share. *)
Definition gateway_nodes_fixture : gmap Z Sensor := ∅.

(** [update_gateway_nodes] updates the shared dict in place and returns
    [nodes]; the pair is the shared dict afterwards and the return value. *)
Definition update_gateway_nodes (gateway_nodes nodes : gmap Z Sensor)
  : gmap Z Sensor * gmap Z Sensor :=
  (nodes ∪ gateway_nodes, nodes).

(** The body shared by the [gps_sensor] and [power_sensor] fixtures:
    register the loaded state, then hand out [nodes[1]]. *)
Definition sensor_fixture (gateway_nodes sensor_state : gmap Z Sensor)
  : Outcome Sensor * gmap Z Sensor :=
  let '(gateway_nodes', nodes) := update_gateway_nodes gateway_nodes sensor_state in
  (match nodes !! 1 with
   | Some node => Ok node
   | None => KeyError 1
   end, gateway_nodes').

Definition gps_sensor (gateway_nodes gps_sensor_state : gmap Z Sensor)
  : Outcome Sensor * gmap Z Sensor :=
  sensor_fixture gateway_nodes gps_sensor_state.

Definition power_sensor (gateway_nodes power_sensor_state : gmap Z Sensor)
  : Outcome Sensor * gmap Z Sensor :=
  sensor_fixture gateway_nodes power_sensor_state.

(** [mock_start_persistence] inside [mock_gateway_features]:
    [gateway.sensors.update(nodes)], with [nodes] the shared dict as it is
    when the gateway starts. *)
Definition mock_start_persistence (nodes gateway_sensors : gmap Z Sensor)
  : gmap Z Sensor :=
  nodes ∪ gateway_sensors.

End Fixtures.

End MySensors.

(** * Properties *)

(** ** Facts about the Python builtins *)

Module PyFacts.

Lemma length_append (s t : string) :
  String.length (s +:+ t) = (String.length s + String.length t)%nat.
Proof.
  induction s as [|c s IH]; [reflexivity|].
  change (String c s +:+ t) with (String c (s +:+ t)). cbn. now rewrite IH.
Qed.

Lemma substring_whole_prefix (s t : string) :
  String.substring 0 (String.length s) (s +:+ t) = s.
Proof.
  induction s as [|c s IH].
  - now destruct t.
  - change (String c s +:+ t) with (String c (s +:+ t)). cbn. now rewrite IH.
Qed.

(** Cutting off as many characters as a suffix has removes that suffix. *)
Lemma slice_to_neg_suffix (s t : string) :
  slice_to_neg (String.length t) (s +:+ t) = s.
Proof.
  unfold slice_to_neg. rewrite length_append.
  replace (String.length s + String.length t - String.length t)%nat
    with (String.length s) by lia.
  apply substring_whole_prefix.
Qed.

Lemma append_assoc (s t u : string) : (s +:+ t) +:+ u = s +:+ (t +:+ u).
Proof.
  induction s as [|c s IH]; [reflexivity|].
  change (String c s +:+ t) with (String c (s +:+ t)).
  change (String c (s +:+ t) +:+ u) with (String c ((s +:+ t) +:+ u)).
  change (String c s +:+ t +:+ u) with (String c (s +:+ t +:+ u)).
  now rewrite IH.
Qed.

Lemma py_eq_true (a b : pyval) : py_eq a b = true <-> a = b.
Proof. unfold py_eq. apply bool_decide_eq_true. Qed.

Lemma py_eq_refl (a : pyval) : py_eq a a = true.
Proof. now apply py_eq_true. Qed.

Lemma py_or_not_none (a : pyval) (s : string) : py_or a (VStr s) <> VNone.
Proof. unfold py_or. destruct a; simpl; try discriminate; destruct (negb _); discriminate. Qed.

End PyFacts.

(** ** Facts about the config flow *)

Module EsphomeFacts.

Import Esphome PyFacts.
Local Open Scope flow_scope.

Ltac run :=
  unfold bind, ret, raise, get_flow, put_flow, get_hass, put_hass, py_assert;
  simpl.

Lemma with_entries_same (w : World) : with_entries w (config_entries (hass w)) = w.
Proof. destruct w as [f [es dd]]. reflexivity. Qed.

Lemma with_flow_same (w : World) : with_flow w (flow w) = w.
Proof. destruct w as [f h]. reflexivity. Qed.

Lemma async_update_entry_run i new_data new_uid (w : World) :
  async_update_entry i new_data new_uid w =
  (Ret tt, with_entries w (alter (update_entry new_data new_uid) i
                             (config_entries (hass w)))).
Proof. reflexivity. Qed.

Lemma alter_middle {A} (f : A -> A) (pre : list A) (x : A) (post : list A) :
  alter f (length pre) (pre ++ x :: post) = pre ++ f x :: post.
Proof.
  replace (length pre) with (length pre + 0)%nat by lia.
  now rewrite alter_app_r.
Qed.

(** The zeroconf loop, run from position [length pre] on the entries that
    follow [pre], is [backfill_first] on those entries. *)
Lemma zeroconf_entries_loop_run (d : DiscoveryInfo) (post : list ConfigEntry) :
  forall (pre : list ConfigEntry) (w : World),
    config_entries (hass w) = pre ++ post ->
    zeroconf_entries_loop d (length pre) post w =
    match backfill_first (hass w) d post with
    | None => (Ret None, w)
    | Some post' =>
        (Ret (Some (Abort "already_configured")), with_entries w (pre ++ post'))
    end.
Proof.
  induction post as [|entry rest IH]; intros pre w Hw; [reflexivity|].
  cbn [zeroconf_entries_loop backfill_first].
  unfold bind at 1, get_hass at 1.
  destruct (already_configured (hass w) d entry) eqn:Hconf.
  - unfold backfill. destruct (negb (truthy (unique_id entry))).
    + unfold bind. rewrite async_update_entry_run. cbn.
      unfold ret. now rewrite Hw, alter_middle.
    + run. now rewrite <- Hw, with_entries_same.
  - specialize (IH (pre ++ [entry]) w).
    rewrite length_app, Nat.add_1_r in IH. rewrite IH.
    + destruct (backfill_first (hass w) d rest); cbn; [|reflexivity].
      now rewrite <- app_assoc.
    + now rewrite <- app_assoc.
Qed.

(** The unique-id check likewise is [merge_first]. *)
Lemma abort_if_unique_id_loop_run (uid : pyval) (updates : gmap string pyval)
    (post : list ConfigEntry) :
  forall (pre : list ConfigEntry) (w : World),
    config_entries (hass w) = pre ++ post ->
    abort_if_unique_id_loop uid updates (length pre) post w =
    match merge_first uid updates post with
    | None => (Ret tt, w)
    | Some post' =>
        (Raise (AbortFlow "already_configured"), with_entries w (pre ++ post'))
    end.
Proof.
  induction post as [|entry rest IH]; intros pre w Hw; [reflexivity|].
  cbn [abort_if_unique_id_loop merge_first].
  destruct (py_eq (unique_id entry) uid).
  - unfold bind. rewrite async_update_entry_run. cbn.
    unfold raise. now rewrite Hw, alter_middle.
  - specialize (IH (pre ++ [entry]) w).
    rewrite length_app, Nat.add_1_r in IH. rewrite IH.
    + destruct (merge_first uid updates rest); cbn; [|reflexivity].
      now rewrite <- app_assoc.
    + now rewrite <- app_assoc.
Qed.

Lemma merge_first_ids uid updates (es es' : list ConfigEntry) :
  merge_first uid updates es = Some es' -> entry_id <$> es' = entry_id <$> es.
Proof.
  revert es'. induction es as [|e es IH]; intros es' H; [discriminate|].
  cbn in H. destruct (py_eq (unique_id e) uid).
  - now inversion H.
  - destruct (merge_first uid updates es) as [l|]; [|discriminate].
    inversion H. cbn. f_equal. now apply IH.
Qed.

Lemma backfill_entry_id d (e : ConfigEntry) : entry_id (backfill d e) = entry_id e.
Proof. unfold backfill. now destruct (negb _). Qed.

Lemma backfill_first_ids h d (es es' : list ConfigEntry) :
  backfill_first h d es = Some es' -> entry_id <$> es' = entry_id <$> es.
Proof.
  revert es'. induction es as [|e es IH]; intros es' H; [discriminate|].
  cbn in H. destruct (already_configured h d e).
  - inversion H. cbn. now rewrite backfill_entry_id.
  - destruct (backfill_first h d es) as [l|]; [|discriminate].
    inversion H. cbn. f_equal. now apply IH.
Qed.

(** A configured entry somewhere in the list makes the loop return. *)
Lemma backfill_first_is_Some h d (es : list ConfigEntry) (e : ConfigEntry) :
  e ∈ es -> already_configured h d e = true -> is_Some (backfill_first h d es).
Proof.
  induction 1 as [e es|e e' es Hin IH]; intros Hconf; cbn.
  - rewrite Hconf. eauto.
  - destruct (already_configured h d e'); [eauto|].
    destruct (IH Hconf) as [l ->]. cbn. eauto.
Qed.

Lemma backfill_first_split h d (pre post : list ConfigEntry) (e : ConfigEntry) :
  Forall (fun x => already_configured h d x = false) pre ->
  already_configured h d e = true ->
  backfill_first h d (pre ++ e :: post) = Some (pre ++ backfill d e :: post).
Proof.
  intros Hpre Hconf. induction Hpre as [|x pre Hx Hpre IH]; cbn.
  - now rewrite Hconf.
  - now rewrite Hx, IH.
Qed.

Lemma merge_first_None uid updates (es : list ConfigEntry) :
  Forall (fun x => unique_id x <> uid) es -> merge_first uid updates es = None.
Proof.
  induction 1 as [|x es Hx Hes IH]; cbn; [reflexivity|].
  destruct (py_eq (unique_id x) uid) eqn:E.
  - apply py_eq_true in E. contradiction.
  - now rewrite IH.
Qed.

Lemma merge_first_split uid updates (pre post : list ConfigEntry) (e : ConfigEntry) :
  Forall (fun x => unique_id x <> uid) pre ->
  unique_id e = uid ->
  merge_first uid updates (pre ++ e :: post) =
  Some (pre ++ update_entry (Some (updates ∪ data e)) None e :: post).
Proof.
  intros Hpre He. induction Hpre as [|x pre Hx Hpre IH]; cbn.
  - now rewrite He, py_eq_refl.
  - destruct (py_eq (unique_id x) uid) eqn:E.
    + apply py_eq_true in E. contradiction.
    + now rewrite IH.
Qed.

Lemma bind_Ret {A B} (m : M A) (k : A -> M B) (w w' : World) (a : A) :
  m w = (Ret a, w') -> bind m k w = k a w'.
Proof. unfold bind. now intros ->. Qed.

Lemma bind_Raise {A B} (m : M A) (k : A -> M B) (w w' : World) (e : Exn) :
  m w = (Raise e, w') -> bind m k w = (Raise e, w').
Proof. unfold bind. now intros ->. Qed.

Lemma async_set_unique_id_run (uid : string) (w : World) :
  async_set_unique_id uid w = (Ret tt, with_flow w (with_unique_id uid (flow w))).
Proof. reflexivity. Qed.

Lemma _abort_if_unique_id_configured_run (updates : gmap string pyval)
    (uid : string) (w : World) :
  ctx_unique_id (context (flow w)) = VStr uid ->
  _abort_if_unique_id_configured updates w =
  match merge_first (VStr uid) updates (config_entries (hass w)) with
  | None => (Ret tt, w)
  | Some es' => (Raise (AbortFlow "already_configured"), with_entries w es')
  end.
Proof.
  intros Huid. unfold _abort_if_unique_id_configured, _async_current_entries.
  erewrite bind_Ret by reflexivity. rewrite Huid.
  erewrite bind_Ret by reflexivity.
  exact (abort_if_unique_id_loop_run (VStr uid) updates (config_entries (hass w))
           [] w eq_refl).
Qed.

(** The whole zeroconf step in one equation. *)
Lemma async_step_zeroconf_run (api : APIClient) (d : DiscoveryInfo) (w : World) :
  handle_step (async_step_zeroconf api d) w =
  let w1 := with_flow w (with_unique_id (node_name_of d) (flow w)) in
  match merge_first (VStr (node_name_of d)) {[ CONF_HOST := VStr (host d) ]}
          (config_entries (hass w)) with
  | Some es' => (Ret (Abort "already_configured"), with_entries w1 es')
  | None =>
      match backfill_first (hass w) d (config_entries (hass w)) with
      | Some es' => (Ret (Abort "already_configured"), with_entries w1 es')
      | None =>
          (Ret (Form "discovery_confirm" None ∅
                  (Some {[ "name" := VStr (node_name_of d) ]})),
           with_flow w (discovered d (flow w)))
      end
  end.
Proof.
  cbv zeta. unfold handle_step, async_step_zeroconf.
  erewrite bind_Ret by apply async_set_unique_id_run.
  set (w1 := with_flow w (with_unique_id (node_name_of d) (flow w))).
  pose proof (_abort_if_unique_id_configured_run
                {[ CONF_HOST := VStr (host d) ]} (node_name_of d) w1 eq_refl)
    as Habort.
  change (config_entries (hass w1)) with (config_entries (hass w)) in Habort.
  destruct (merge_first _ _ _) as [es'|].
  - now erewrite bind_Raise by exact Habort.
  - erewrite bind_Ret by exact Habort.
    erewrite bind_Ret by reflexivity.
    pose proof (zeroconf_entries_loop_run d (config_entries (hass w1)) [] w1
                  eq_refl) as Hloop.
    change (hass w1) with (hass w) in Hloop. cbn [length app] in Hloop.
    unfold _async_current_entries. change (hass w1) with (hass w).
    destruct (backfill_first _ _ _) as [es'|].
    + now erewrite bind_Ret by exact Hloop.
    + erewrite bind_Ret by exact Hloop. reflexivity.
Qed.

(** Each of the three matches of the spec is one the loop recognises. *)
Lemma matches_already_configured (h : HomeAssistant) (d : DiscoveryInfo)
    (e : ConfigEntry) :
  matches_address d e \/ matches_host d e \/ matches_name h d e ->
  already_configured h d e = true.
Proof.
  unfold already_configured, matches_address, matches_host, matches_name,
    address_of, is_entry_loaded, get_entry_data, py_in_list.
  intros [(a & Ha & He) | [He | (info & Hd & Hn)]].
  - rewrite He, Ha. cbn. now rewrite py_eq_refl.
  - rewrite He. cbn. rewrite py_eq_refl. now rewrite orb_true_r.
  - rewrite Hd. rewrite bool_decide_eq_true_2 by eauto.
    rewrite (bool_decide_eq_true_2 _ Hn).
    destruct (data e !! CONF_HOST); [|reflexivity].
    now destruct (existsb _ _).
Qed.

(** *** Zeroconf discovery *)

(** C2, as stated, fails: the node name becomes the flow's name only on
    the way to the confirmation form.  Here the discovered host is
    configured already, the step aborts, and the flow has no name. *)
Lemma zeroconf_display_name_counterexample :
  ~ (forall (api : APIClient) (d : DiscoveryInfo) (nm : string) (w : World),
        hostname d = nm +:+ ".local." ->
        let out := run_step api (StepZeroconf d) w in
        node_name_of d = nm /\
        ctx_unique_id (context (flow (snd out))) = VStr nm /\
        _name (flow (snd out)) = VStr nm).
Proof.
  intros H.
  destruct (H example_api example_discovery "livingroom"
              (example_world [example_entry "e1" VNone "192.168.1.5"]) eq_refl)
    as (_ & _ & Hname).
  vm_compute in Hname. discriminate Hname.
Qed.

(** C2, amended: a discovered host name [<name>.local.] gives the node name
    [<name>] (the trailing dot and the [.local] suffix are cut off).  The
    step records it as the flow's unique id whatever the outcome, and,
    unless it aborts with [already_configured], as the flow's name and
    title placeholder and as the name shown on the confirmation form. *)
Theorem zeroconf_node_name (api : APIClient) (d : DiscoveryInfo) (nm : string)
    (w : World) :
  hostname d = nm +:+ ".local." ->
  local_name_of d = nm +:+ ".local" /\
  node_name_of d = nm /\
  let out := run_step api (StepZeroconf d) w in
  ctx_unique_id (context (flow (snd out))) = VStr nm /\
  (fst out = Ret (Abort "already_configured") \/
   (fst out = Ret (Form "discovery_confirm" None ∅ (Some {[ "name" := VStr nm ]})) /\
    _name (flow (snd out)) = VStr nm /\
    ctx_title_placeholders (context (flow (snd out))) =
      Some {[ "name" := VStr nm ]})).
Proof.
  intros Hhost.
  assert (Hlocal : local_name_of d = nm +:+ ".local").
  { unfold local_name_of. rewrite Hhost.
    change (nm +:+ ".local.") with (nm +:+ (".local" +:+ ".")).
    rewrite <- append_assoc. exact (slice_to_neg_suffix (nm +:+ ".local") "."). }
  assert (Hnode : node_name_of d = nm).
  { unfold node_name_of. rewrite Hlocal. apply slice_to_neg_suffix. }
  split; [exact Hlocal|]. split; [exact Hnode|].
  cbv zeta. unfold run_step. rewrite async_step_zeroconf_run. cbv zeta.
  rewrite Hnode.
  destruct (merge_first _ _ _) as [es'|]; [cbn; auto|].
  destruct (backfill_first _ _ _) as [es'|]; [cbn; auto|].
  cbn. rewrite Hnode. auto.
Qed.

Lemma zeroconf_node_name_witness :
  let out := run_step example_api (StepZeroconf example_discovery)
               (example_world []) in
  hostname example_discovery = "livingroom" +:+ ".local." /\
  node_name_of example_discovery = "livingroom" /\
  ctx_unique_id (context (flow (snd out))) = VStr "livingroom" /\
  fst out = Ret (Form "discovery_confirm" None ∅
                   (Some {[ "name" := VStr "livingroom" ]})) /\
  _name (flow (snd out)) = VStr "livingroom".
Proof.
  cbv zeta.
  destruct (zeroconf_node_name example_api example_discovery "livingroom"
              (example_world []) eq_refl) as (_ & Hnode & Huid & Hout).
  split; [reflexivity|]. split; [exact Hnode|]. split; [exact Huid|].
  destruct Hout as [Habort | (Hform & Hname & _)].
  - vm_compute in Habort. discriminate Habort.
  - split; [exact Hform | exact Hname].
Defined.

(** C3: when some existing entry stands for the discovered device, by the
    discovery's address property, by the raw discovery host, or as a loaded
    entry whose device name is the node name, the zeroconf step aborts with
    reason [already_configured]; the entries afterwards are the same
    entries as before, none is created. *)
Theorem zeroconf_aborts_when_configured (api : APIClient) (d : DiscoveryInfo)
    (w : World) (e : ConfigEntry) :
  e ∈ config_entries (hass w) ->
  matches_address d e \/ matches_host d e \/ matches_name (hass w) d e ->
  exists w',
    run_step api (StepZeroconf d) w = (Ret (Abort "already_configured"), w') /\
    entry_id <$> config_entries (hass w') = entry_id <$> config_entries (hass w) /\
    length (config_entries (hass w')) = length (config_entries (hass w)).
Proof.
  intros Hin Hmatch. apply matches_already_configured in Hmatch.
  unfold run_step. rewrite async_step_zeroconf_run. cbv zeta.
  assert (Hlen : forall es' : list ConfigEntry,
             entry_id <$> es' = entry_id <$> config_entries (hass w) ->
             length es' = length (config_entries (hass w))).
  { intros es' H. apply (f_equal length) in H. now rewrite !length_fmap in H. }
  destruct (merge_first _ _ _) as [es'|] eqn:Hmerge.
  - apply merge_first_ids in Hmerge. eexists. split; [reflexivity|]. cbn. auto.
  - destruct (backfill_first_is_Some _ _ _ _ Hin Hmatch) as [es' Hes].
    rewrite Hes. apply backfill_first_ids in Hes.
    eexists. split; [reflexivity|]. cbn. auto.
Qed.

Lemma zeroconf_aborts_when_configured_witness :
  exists w',
    run_step example_api (StepZeroconf example_discovery)
      (example_world [example_entry "e1" VNone "192.168.1.5"])
    = (Ret (Abort "already_configured"), w') /\
    entry_id <$> config_entries (hass w') = ["e1"] /\
    length (config_entries (hass w')) = 1%nat.
Proof.
  apply (zeroconf_aborts_when_configured example_api example_discovery
           (example_world [example_entry "e1" VNone "192.168.1.5"])
           (example_entry "e1" VNone "192.168.1.5")).
  - apply list_elem_of_here.
  - right. left. reflexivity.
Defined.

(** C8, as stated, fails: the loop returns at the first entry that stands
    for the device, so a second such entry without unique id is left as it
    was.  Here both entries are configured for the discovered host and
    neither has a unique id. *)
Lemma zeroconf_backfill_every_match_counterexample :
  ~ (forall (api : APIClient) (d : DiscoveryInfo) (w : World) (i : nat)
            (e : ConfigEntry),
        config_entries (hass w) !! i = Some e ->
        matches_address d e \/ matches_host d e \/ matches_name (hass w) d e ->
        has_no_unique_id e ->
        exists e',
          config_entries (hass (snd (run_step api (StepZeroconf d) w))) !! i
            = Some e' /\
          unique_id e' = VStr (node_name_of d) /\
          data e' !! CONF_HOST = Some (VStr (host d))).
Proof.
  intros H.
  destruct (H example_api example_discovery
              (example_world [example_entry "e1" VNone "192.168.1.5";
                              example_entry "e2" VNone "192.168.1.5"])
              1%nat (example_entry "e2" VNone "192.168.1.5"))
    as (e' & Hlook & Huid & _).
  - reflexivity.
  - right. left. reflexivity.
  - reflexivity.
  - vm_compute in Hlook. inversion Hlook as [He']. rewrite <- He' in Huid.
    vm_compute in Huid. discriminate Huid.
Qed.

(** C8, amended: when no entry carries the node name as unique id already,
    the first entry in iteration order that stands for the discovered
    device is the one backfilled before the abort.  If it has no unique id
    it gets the node name as unique id and the discovered host as host; if
    it has one it is left as it is.  Every other entry is left as it is. *)
Theorem zeroconf_backfills_first_match (api : APIClient) (d : DiscoveryInfo)
    (w : World) (pre post : list ConfigEntry) (e : ConfigEntry) :
  config_entries (hass w) = pre ++ e :: post ->
  Forall (fun x => unique_id x <> VStr (node_name_of d)) (config_entries (hass w)) ->
  Forall (fun x => already_configured (hass w) d x = false) pre ->
  already_configured (hass w) d e = true ->
  exists (w' : World) (e' : ConfigEntry),
    run_step api (StepZeroconf d) w = (Ret (Abort "already_configured"), w') /\
    config_entries (hass w') = pre ++ e' :: post /\
    (has_no_unique_id e ->
       e' = {| entry_id := entry_id e;
               unique_id := VStr (node_name_of d);
               data := <[CONF_HOST := VStr (host d)]> (data e) |}) /\
    (~ has_no_unique_id e -> e' = e).
Proof.
  intros Hes Huid Hpre He.
  unfold run_step. rewrite async_step_zeroconf_run. cbv zeta.
  rewrite (merge_first_None _ _ _ Huid), Hes.
  rewrite (backfill_first_split _ _ _ _ _ Hpre He).
  exists (with_entries
            (with_flow w (with_unique_id (node_name_of d) (flow w)))
            (pre ++ backfill d e :: post)), (backfill d e).
  split; [reflexivity|]. split; [reflexivity|].
  unfold backfill, has_no_unique_id.
  destruct (truthy (unique_id e)); cbn; split; intros H;
    first [reflexivity | discriminate H | exfalso; apply H; reflexivity].
Qed.

Lemma zeroconf_backfills_first_match_witness :
  exists (w' : World) (e' : ConfigEntry),
    run_step example_api (StepZeroconf example_discovery)
      (example_world [example_entry "e0" (VStr "kitchen") "192.168.1.9";
                      example_entry "e1" VNone "livingroom.local";
                      example_entry "e2" VNone "192.168.1.5"])
    = (Ret (Abort "already_configured"), w') /\
    config_entries (hass w')
    = [example_entry "e0" (VStr "kitchen") "192.168.1.9"] ++
      e' :: [example_entry "e2" VNone "192.168.1.5"] /\
    (has_no_unique_id (example_entry "e1" VNone "livingroom.local") ->
     e' = {| entry_id := "e1"; unique_id := VStr "livingroom";
             data := <[CONF_HOST := VStr "192.168.1.5"]>
                       {[ CONF_HOST := VStr "livingroom.local" ]} |}) /\
    (~ has_no_unique_id (example_entry "e1" VNone "livingroom.local") ->
     e' = example_entry "e1" VNone "livingroom.local").
Proof.
  apply (zeroconf_backfills_first_match example_api example_discovery
           (example_world [example_entry "e0" (VStr "kitchen") "192.168.1.9";
                           example_entry "e1" VNone "livingroom.local";
                           example_entry "e2" VNone "192.168.1.5"])
           [example_entry "e0" (VStr "kitchen") "192.168.1.9"]
           [example_entry "e2" VNone "192.168.1.5"]
           (example_entry "e1" VNone "livingroom.local")).
  - reflexivity.
  - repeat constructor; discriminate.
  - repeat constructor.
  - reflexivity.
Defined.

(** C9: when an entry already carries the node name as its unique id, the
    zeroconf step aborts with [already_configured], and the check that
    aborts has first written the discovered host into that entry's data.
    The entry keeps its id and unique id; the entries around it are left
    as they are. *)
Theorem zeroconf_unique_id_abort_updates_host (api : APIClient)
    (d : DiscoveryInfo) (w : World) (pre post : list ConfigEntry)
    (e : ConfigEntry) :
  config_entries (hass w) = pre ++ e :: post ->
  Forall (fun x => unique_id x <> VStr (node_name_of d)) pre ->
  unique_id e = VStr (node_name_of d) ->
  exists w',
    run_step api (StepZeroconf d) w = (Ret (Abort "already_configured"), w') /\
    config_entries (hass w') =
      pre ++ {| entry_id := entry_id e;
                unique_id := unique_id e;
                data := <[CONF_HOST := VStr (host d)]> (data e) |} :: post.
Proof.
  intros Hes Hpre He.
  unfold run_step. rewrite async_step_zeroconf_run. cbv zeta.
  rewrite Hes, (merge_first_split _ _ _ _ _ Hpre He).
  eexists. split; [reflexivity|].
  rewrite (insert_union_singleton_l (data e)). reflexivity.
Qed.

Lemma zeroconf_unique_id_abort_updates_host_witness :
  exists w',
    run_step example_api (StepZeroconf example_discovery)
      (example_world [example_entry "e1" (VStr "livingroom") "192.168.1.77"])
    = (Ret (Abort "already_configured"), w') /\
    config_entries (hass w') =
      [] ++ {| entry_id := "e1"; unique_id := VStr "livingroom";
               data := <[CONF_HOST := VStr "192.168.1.5"]>
                         {[ CONF_HOST := VStr "192.168.1.77" ]} |} :: [].
Proof.
  apply (zeroconf_unique_id_abort_updates_host example_api example_discovery
           (example_world [example_entry "e1" (VStr "livingroom") "192.168.1.77"])
           [] [] (example_entry "e1" (VStr "livingroom") "192.168.1.77")).
  - reflexivity.
  - constructor.
  - reflexivity.
Defined.

(** *** Fetching device info and logging in *)

Lemma is_not_none_true (v : pyval) : v <> VNone -> is_not_none v = true.
Proof. now destruct v. Qed.

Lemma fetch_device_info_run (api : APIClient) (w : World) :
  _host (flow w) <> VNone -> _port (flow w) <> VNone ->
  fetch_device_info api w =
  (Ret match device_info_at api (_host (flow w)) (_port (flow w)) with
       | inl message => (Some (error_category message), None)
       | inr info => (None, Some info)
       end, w).
Proof.
  intros Hh Hp. unfold fetch_device_info, error_category. run.
  rewrite (is_not_none_true _ Hh), (is_not_none_true _ Hp). cbn.
  destruct (device_info_at api _ _) as [message|info]; [|reflexivity].
  now destruct (str_contains _ _).
Qed.

Lemma try_login_run (api : APIClient) (w : World) :
  _host (flow w) <> VNone -> _port (flow w) <> VNone ->
  try_login api w =
  (Ret match login_at api (_host (flow w)) (_port (flow w)) (_password (flow w)) with
       | Some _ => Some "invalid_auth"%string
       | None => None
       end, w).
Proof.
  intros Hh Hp. unfold try_login. run.
  rewrite (is_not_none_true _ Hh), (is_not_none_true _ Hp). cbn.
  now destruct (login_at api _ _ _).
Qed.

Lemma _async_get_entry_run (w : World) :
  _name (flow w) <> VNone ->
  _async_get_entry w = (Ret (CreateEntry (_name (flow w)) (entry_data_of (flow w))), w).
Proof.
  intros Hn. unfold _async_get_entry. run. now rewrite (is_not_none_true _ Hn).
Qed.

(** Whatever [_async_get_entry] creates is the data literal of the handler
    it ran on, and it leaves the state alone. *)
Lemma _async_get_entry_inv (w w' : World) (r : FlowResult) :
  _async_get_entry w = (Ret r, w') ->
  w' = w /\ r = CreateEntry (_name (flow w)) (entry_data_of (flow w)).
Proof.
  unfold _async_get_entry. run. destruct (is_not_none _); cbn; intros H;
    inversion H; auto.
Qed.

(** The authenticate step with a password, from a state where host, port
    and name are known. *)
Lemma async_step_authenticate_run (api : APIClient)
    (ui : gmap string pyval) (error : option string) (pw : pyval) (w : World) :
  ready w -> ui !! CONF_PASSWORD = Some pw ->
  let w' := with_flow w (set_password pw (flow w)) in
  async_step_authenticate api (Some ui) error w =
  match login_at api (_host (flow w)) (_port (flow w)) pw with
  | Some _ =>
      (Ret (Form "authenticate" (Some [Required "password" None])
              {[ "base" := "invalid_auth"%string ]}
              (Some {[ "name" := _name (flow w) ]})), w')
  | None => (Ret (CreateEntry (_name (flow w)) (entry_data_of (flow w'))), w')
  end.
Proof.
  intros (Hh & Hp & Hn) Hpw. cbv zeta.
  unfold async_step_authenticate, subscript. rewrite Hpw.
  erewrite bind_Ret by reflexivity. erewrite bind_Ret by reflexivity.
  erewrite bind_Ret by reflexivity.
  set (w' := with_flow w (set_password pw (flow w))).
  erewrite bind_Ret by (apply (try_login_run api w'); assumption).
  change (_host (flow w')) with (_host (flow w)).
  change (_port (flow w')) with (_port (flow w)).
  change (_password (flow w')) with pw.
  destruct (login_at api _ _ pw); cbn [str_truthy String.eqb negb].
  - reflexivity.
  - now rewrite (_async_get_entry_run w') by assumption.
Qed.

Lemma _set_user_input_run (ui : gmap string pyval) (h p : pyval) (w : World) :
  ui !! CONF_HOST = Some h -> ui !! CONF_PORT = Some p ->
  _set_user_input (Some ui) w =
  (Ret tt, with_flow w (set_port p (set_host h (flow w)))).
Proof.
  intros Hh Hp. unfold _set_user_input, subscript. rewrite Hh, Hp. reflexivity.
Qed.

(** The failure branch of [_async_authenticate_or_add]. *)
Lemma _async_authenticate_or_add_failure (api : APIClient)
    (user_input : option (gmap string pyval)) (w w1 : World) (message : string) :
  _set_user_input user_input w = (Ret tt, w1) ->
  _host (flow w1) <> VNone ->
  _port (flow w1) <> VNone ->
  device_info_at api (_host (flow w1)) (_port (flow w1)) = inl message ->
  _async_authenticate_or_add api user_input w =
    (Ret (Form "user" (Some (user_schema (flow w1)))
            {[ "base" := error_category message ]} None), w1).
Proof.
  intros Hset Hh Hp Hfail. unfold _async_authenticate_or_add.
  erewrite bind_Ret by exact Hset.
  erewrite bind_Ret by (apply fetch_device_info_run; assumption).
  rewrite Hfail. reflexivity.
Qed.

(** C5: a connection failure while fetching the device info is put in one
    of two categories, [resolve_error] when the error message mentions
    [resolving] and [connection_error] otherwise, and the wizard shows the
    user form again with that error under [base]; the flow neither aborts
    nor raises. *)
Theorem connection_failure_reshows_user_form (api : APIClient)
    (user_input : option (gmap string pyval)) (w w1 : World) (message : string) :
  _set_user_input user_input w = (Ret tt, w1) ->
  _host (flow w1) <> VNone ->
  _port (flow w1) <> VNone ->
  device_info_at api (_host (flow w1)) (_port (flow w1)) = inl message ->
  _async_authenticate_or_add api user_input w =
    (Ret (Form "user" (Some (user_schema (flow w1)))
            {[ "base" := error_category message ]} None), w1) /\
  (str_contains "resolving" message = true ->
     error_category message = "resolve_error") /\
  (str_contains "resolving" message = false ->
     error_category message = "connection_error").
Proof.
  intros Hset Hh Hp Hfail. split.
  - now apply _async_authenticate_or_add_failure.
  - unfold error_category. split; intros ->; reflexivity.
Qed.

Lemma connection_failure_reshows_user_form_witness :
  let ui : gmap string pyval :=
    {[ CONF_HOST := VStr "nowhere.local"; CONF_PORT := VInt 6053 ]} in
  let w1 := with_flow (example_world [])
              (set_port (VInt 6053) (set_host (VStr "nowhere.local") __init__)) in
  run_step example_api (StepUser (Some ui)) (example_world []) =
    (Ret (Form "user" (Some (user_schema (flow w1)))
            {[ "base" := "resolve_error"%string ]} None), w1).
Proof.
  cbv zeta.
  exact (proj1 (connection_failure_reshows_user_form example_api
                  (Some {[ CONF_HOST := VStr "nowhere.local"; CONF_PORT := VInt 6053 ]})
                  (example_world [])
                  (with_flow (example_world [])
                     (set_port (VInt 6053) (set_host (VStr "nowhere.local") __init__)))
                  "Error resolving IP address"
                  eq_refl ltac:(discriminate) ltac:(discriminate) eq_refl)).
Defined.

(** The same through the two steps that fetch device info. *)
Lemma user_step_connection_failure (api : APIClient) (ui : gmap string pyval)
    (h p : pyval) (w : World) (message : string) :
  ui !! CONF_HOST = Some h -> ui !! CONF_PORT = Some p ->
  h <> VNone -> p <> VNone ->
  device_info_at api h p = inl message ->
  let w1 := with_flow w (set_port p (set_host h (flow w))) in
  run_step api (StepUser (Some ui)) w =
    (Ret (Form "user" (Some (user_schema (flow w1)))
            {[ "base" := error_category message ]} None), w1).
Proof.
  intros Hh Hp Hh' Hp' Hfail. cbv zeta. unfold run_step, handle_step.
  change (async_step_user api (Some ui))
    with (_async_authenticate_or_add api (Some ui)).
  rewrite (_async_authenticate_or_add_failure api (Some ui) w _ message
             (_set_user_input_run ui h p w Hh Hp) Hh' Hp' Hfail).
  reflexivity.
Qed.

Lemma discovery_confirm_connection_failure (api : APIClient)
    (ui : gmap string pyval) (w : World) (message : string) :
  _host (flow w) <> VNone -> _port (flow w) <> VNone ->
  device_info_at api (_host (flow w)) (_port (flow w)) = inl message ->
  run_step api (StepDiscoveryConfirm (Some ui)) w =
    (Ret (Form "user" (Some (user_schema (flow w)))
            {[ "base" := error_category message ]} None), w).
Proof.
  intros Hh Hp Hfail. unfold run_step, handle_step.
  change (async_step_discovery_confirm api (Some ui))
    with (_async_authenticate_or_add api None).
  rewrite (_async_authenticate_or_add_failure api None w w message
             eq_refl Hh Hp Hfail).
  reflexivity.
Qed.

(** C4: after a successful fetch of the device info, a device that uses a
    password takes the flow to the authenticate form (no error shown).  In
    the authenticate step, whatever was entered before, a password the
    device rejects shows the authenticate form again with error
    [invalid_auth], and a password it accepts creates the config entry,
    titled with the device name and holding host, port and that password. *)
Theorem password_device_authenticates (api : APIClient)
    (user_input : option (gmap string pyval)) (w w1 : World) (info : DeviceInfo)
    (ui : gmap string pyval) (pw old_pw : pyval) :
  _set_user_input user_input w = (Ret tt, w1) ->
  _host (flow w1) <> VNone ->
  _port (flow w1) <> VNone ->
  device_info_at api (_host (flow w1)) (_port (flow w1)) = inr info ->
  uses_password info = true ->
  ui !! CONF_PASSWORD = Some pw ->
  let w2 := with_flow w1 (_name_setter (VStr (name info)) (flow w1)) in
  let before := with_flow w2 (set_password old_pw (flow w2)) in
  let after := with_flow w2 (set_password pw (flow w2)) in
  let form errors :=
    Form "authenticate" (Some [Required "password" None]) errors
      (Some {[ "name" := VStr (name info) ]}) in
  _async_authenticate_or_add api user_input w = (Ret (form ∅), w2) /\
  (is_Some (login_at api (_host (flow w1)) (_port (flow w1)) pw) ->
   run_step api (StepAuthenticate (Some ui)) before =
     (Ret (form {[ "base" := "invalid_auth"%string ]}), after)) /\
  (login_at api (_host (flow w1)) (_port (flow w1)) pw = None ->
   run_step api (StepAuthenticate (Some ui)) before =
     (Ret (CreateEntry (VStr (name info))
             (<[CONF_HOST := _host (flow w1)]>
                (<[CONF_PORT := _port (flow w1)]>
                   (<[CONF_PASSWORD := py_or pw (VStr "")]> ∅)))), after)).
Proof.
  intros Hset Hh Hp Hinfo Huses Hpw. cbv zeta.
  set (w2 := with_flow w1 (_name_setter (VStr (name info)) (flow w1))).
  set (before := with_flow w2 (set_password old_pw (flow w2))).
  assert (Hready : ready before) by (repeat split; [exact Hh | exact Hp | discriminate]).
  pose proof (async_step_authenticate_run api ui None pw before Hready Hpw) as Hauth.
  cbv zeta in Hauth.
  change (_host (flow before)) with (_host (flow w1)) in Hauth.
  change (_port (flow before)) with (_port (flow w1)) in Hauth.
  split; [|split].
  - unfold _async_authenticate_or_add.
    erewrite bind_Ret by exact Hset.
    erewrite bind_Ret by (apply fetch_device_info_run; assumption).
    rewrite Hinfo, Huses. reflexivity.
  - intros [err Herr]. unfold run_step, handle_step.
    rewrite Hauth, Herr. reflexivity.
  - intros Hok. unfold run_step, handle_step.
    rewrite Hauth, Hok. reflexivity.
Qed.

Lemma password_device_authenticates_witness :
  let ui_user : gmap string pyval :=
    {[ CONF_HOST := VStr "192.168.1.5"; CONF_PORT := VInt 6053 ]} in
  let w1 := with_flow (example_world [])
              (set_port (VInt 6053) (set_host (VStr "192.168.1.5") __init__)) in
  let w2 := with_flow w1 (_name_setter (VStr "livingroom") (flow w1)) in
  run_step example_api (StepUser (Some ui_user)) (example_world []) =
    (Ret (Form "authenticate" (Some [Required "password" None]) ∅
            (Some {[ "name" := VStr "livingroom" ]})), w2) /\
  run_step example_api (StepAuthenticate (Some {[ CONF_PASSWORD := VStr "guess" ]})) w2 =
    (Ret (Form "authenticate" (Some [Required "password" None])
            {[ "base" := "invalid_auth"%string ]}
            (Some {[ "name" := VStr "livingroom" ]})),
     with_flow w2 (set_password (VStr "guess") (flow w2))) /\
  run_step example_api (StepAuthenticate (Some {[ CONF_PASSWORD := VStr "secret" ]}))
    (with_flow w2 (set_password (VStr "guess") (flow w2))) =
    (Ret (CreateEntry (VStr "livingroom")
            (<[CONF_HOST := VStr "192.168.1.5"]>
               (<[CONF_PORT := VInt 6053]>
                  (<[CONF_PASSWORD := VStr "secret"]> ∅)))),
     with_flow w2 (set_password (VStr "secret") (flow w2))).
Proof.
  cbv zeta.
  pose proof (fun ui pw old_pw =>
    password_device_authenticates example_api
      (Some {[ CONF_HOST := VStr "192.168.1.5"; CONF_PORT := VInt 6053 ]})
      (example_world [])
      (with_flow (example_world [])
         (set_port (VInt 6053) (set_host (VStr "192.168.1.5") __init__)))
      {| name := "livingroom"; uses_password := true |}
      ui pw old_pw
      eq_refl ltac:(discriminate) ltac:(discriminate) eq_refl eq_refl) as H.
  assert (Hguess : ({[ CONF_PASSWORD := VStr "guess" ]} : gmap string pyval)
                   !! CONF_PASSWORD = Some (VStr "guess")) by reflexivity.
  assert (Hsecret : ({[ CONF_PASSWORD := VStr "secret" ]} : gmap string pyval)
                    !! CONF_PASSWORD = Some (VStr "secret")) by reflexivity.
  split; [|split].
  - exact (proj1 (H _ _ VNone Hguess)).
  - apply (proj1 (proj2 (H _ _ VNone Hguess))).
    vm_compute. eauto.
  - apply (proj2 (proj2 (H _ _ (VStr "guess") Hsecret))).
    reflexivity.
Defined.

(** *** The entry the flow creates *)

Lemma bind_inv {A B} (m : M A) (k : A -> M B) (w w' : World) (b : B) :
  bind m k w = (Ret b, w') ->
  exists a w1, m w = (Ret a, w1) /\ k a w1 = (Ret b, w').
Proof.
  unfold bind. destruct (m w) as [[a|e] w1]; [eauto | discriminate].
Qed.

Lemma handle_step_create (m : M FlowResult) (w w' : World) (t : pyval)
    (d : gmap string pyval) :
  handle_step m w = (Ret (CreateEntry t d), w') ->
  m w = (Ret (CreateEntry t d), w').
Proof.
  unfold handle_step. destruct (m w) as [[r|[reason| |key]] w1]; intros H;
    first [exact H | discriminate H].
Qed.

Ltac inv_bind H :=
  let a := fresh "a" in
  let w1 := fresh "w" in
  let Hm := fresh "Hm" in
  apply bind_inv in H; destruct H as (a & w1 & Hm & H).

Lemma async_step_authenticate_creates (api : APIClient)
    (user_input : option (gmap string pyval)) (error : option string)
    (w w' : World) (t : pyval) (d : gmap string pyval) :
  async_step_authenticate api user_input error w = (Ret (CreateEntry t d), w') ->
  t = _name (flow w') /\ d = entry_data_of (flow w').
Proof.
  unfold async_step_authenticate. destruct user_input as [ui|]; [|discriminate].
  intros H. do 4 inv_bind H.
  destruct (str_truthy _); [discriminate|].
  apply _async_get_entry_inv in H. destruct H as [-> H]. now inversion H.
Qed.

Lemma _async_authenticate_or_add_creates (api : APIClient)
    (user_input : option (gmap string pyval))
    (w w' : World) (t : pyval) (d : gmap string pyval) :
  _async_authenticate_or_add api user_input w = (Ret (CreateEntry t d), w') ->
  t = _name (flow w') /\ d = entry_data_of (flow w').
Proof.
  unfold _async_authenticate_or_add. intros H. do 2 inv_bind H.
  destruct a0 as [[error|] [info|]]; try discriminate.
  do 2 inv_bind H. destruct (uses_password info).
  - discriminate.
  - apply _async_get_entry_inv in H. destruct H as [-> H]. now inversion H.
Qed.

(** Whatever step creates an entry, its title and data are the handler's
    name and data literal at that moment. *)
Lemma run_step_creates (api : APIClient) (s : Step) (w w' : World) (t : pyval)
    (d : gmap string pyval) :
  run_step api s w = (Ret (CreateEntry t d), w') ->
  t = _name (flow w') /\ d = entry_data_of (flow w').
Proof.
  destruct s as [ui|disc|ui|ui]; intros H.
  - apply handle_step_create in H. destruct ui as [ui|]; [|discriminate].
    now apply _async_authenticate_or_add_creates in H.
  - unfold run_step in H. rewrite async_step_zeroconf_run in H. cbv zeta in H.
    destruct (merge_first _ _ _); [discriminate|].
    destruct (backfill_first _ _ _); discriminate.
  - apply handle_step_create in H. destruct ui as [ui|]; [|discriminate].
    now apply _async_authenticate_or_add_creates in H.
  - apply handle_step_create in H.
    now apply async_step_authenticate_creates in H.
Qed.

(** C6: whichever step creates a config entry, the entry's data has
    exactly the keys [host], [port] and [password]; host and port are the
    handler's, and the password is [self._password or ""]: never [None],
    and the empty string when no password was collected. *)
Theorem created_entry_fields (api : APIClient) (s : Step) (w w' : World)
    (title : pyval) (entry_data : gmap string pyval) :
  run_step api s w = (Ret (CreateEntry title entry_data), w') ->
  dom entry_data = ({[ CONF_HOST; CONF_PORT; CONF_PASSWORD ]} : gset string) /\
  entry_data !! CONF_HOST = Some (_host (flow w')) /\
  entry_data !! CONF_PORT = Some (_port (flow w')) /\
  entry_data !! CONF_PASSWORD = Some (py_or (_password (flow w')) (VStr "")) /\
  entry_data !! CONF_PASSWORD <> Some VNone /\
  (_password (flow w') = VNone -> entry_data !! CONF_PASSWORD = Some (VStr "")).
Proof.
  intros H. apply run_step_creates in H. destruct H as [_ ->].
  unfold entry_data_of.
  assert (Hpw : (<[CONF_HOST := _host (flow w')]>
                   (<[CONF_PORT := _port (flow w')]>
                      (<[CONF_PASSWORD := py_or (_password (flow w')) (VStr "")]>
                         (∅ : gmap string pyval)))) !! CONF_PASSWORD
                = Some (py_or (_password (flow w')) (VStr ""))).
  { rewrite lookup_insert_ne by discriminate.
    rewrite lookup_insert_ne by discriminate.
    apply lookup_insert_eq. }
  split; [|split; [|split; [|split; [|split]]]].
  - rewrite !dom_insert_L, dom_empty_L. set_solver.
  - apply lookup_insert_eq.
  - rewrite lookup_insert_ne by discriminate. apply lookup_insert_eq.
  - exact Hpw.
  - rewrite Hpw. intros [= Hnone]. now apply py_or_not_none in Hnone.
  - intros Hnone. rewrite Hpw, Hnone. reflexivity.
Qed.

Lemma created_entry_fields_witness :
  let ui : gmap string pyval :=
    {[ CONF_HOST := VStr "192.168.1.6"; CONF_PORT := VInt 6053 ]} in
  let out := run_step example_api (StepUser (Some ui)) (example_world []) in
  fst out = Ret (CreateEntry (VStr "kitchen")
                   (<[CONF_HOST := VStr "192.168.1.6"]>
                      (<[CONF_PORT := VInt 6053]>
                         (<[CONF_PASSWORD := VStr ""]> ∅)))) /\
  dom (<[CONF_HOST := VStr "192.168.1.6"]>
         (<[CONF_PORT := VInt 6053]>
            (<[CONF_PASSWORD := VStr ""]> (∅ : gmap string pyval))))
  = ({[ CONF_HOST; CONF_PORT; CONF_PASSWORD ]} : gset string).
Proof.
  cbv zeta. split; [reflexivity|].
  refine (proj1 (created_entry_fields example_api
                   (StepUser (Some {[ CONF_HOST := VStr "192.168.1.6";
                                      CONF_PORT := VInt 6053 ]}))
                   (example_world [])
                   (snd (run_step example_api
                           (StepUser (Some {[ CONF_HOST := VStr "192.168.1.6";
                                              CONF_PORT := VInt 6053 ]}))
                           (example_world [])))
                   (VStr "kitchen") _ _)).
  reflexivity.
Defined.

End EsphomeFacts.

(** ** Facts about the HomeKit light accessory *)

Module HomekitLightFacts.

Import HomekitLight.

(** *** Rounding and truncation *)

Lemma py_round_cases (q : Q) :
  py_round q = Qnum q / Zpos (Qden q) \/ py_round q = Qnum q / Zpos (Qden q) + 1.
Proof.
  unfold py_round. destruct (_ ?= _); auto. destruct (Z.even _); auto.
Qed.

(** [py_round] never steps over an integer bound. *)
Lemma py_round_le (q : Q) (k : Z) : (q <= inject_Z k)%Q -> py_round q <= k.
Proof.
  unfold Qle, py_round. cbn [Qnum Qden inject_Z].
  destruct q as [n d]. cbn [Qnum Qden]. intros H.
  pose proof (Z.div_mod n (Zpos d) ltac:(lia)) as Hdm.
  pose proof (Z.mod_pos_bound n (Zpos d) ltac:(lia)) as Hb.
  assert (n / Zpos d <= k) by nia.
  destruct (Z.compare_spec (2 * (n mod Zpos d)) (Zpos d)) as [E|E|E].
  - destruct (Z.even _); nia.
  - lia.
  - nia.
Qed.

Lemma py_round_ge (q : Q) (k : Z) : (inject_Z k <= q)%Q -> k <= py_round q.
Proof.
  unfold Qle. cbn [Qnum Qden inject_Z]. intros H.
  destruct q as [n d]. cbn [Qnum Qden] in *.
  pose proof (Z.div_mod n (Zpos d) ltac:(lia)) as Hdm.
  pose proof (Z.mod_pos_bound n (Zpos d) ltac:(lia)) as Hb.
  assert (k <= n / Zpos d) by nia.
  destruct (py_round_cases (n # d)) as [-> | ->]; cbn [Qnum Qden]; lia.
Qed.

(** [py_round q] is an integer nearest to [q]. *)
Lemma py_round_nearest (q : Q) :
  (inject_Z (py_round q) - (1 # 2) <= q <= inject_Z (py_round q) + (1 # 2))%Q.
Proof.
  destruct q as [n d]. unfold py_round. cbn [Qnum Qden].
  pose proof (Z.div_mod n (Zpos d) ltac:(lia)) as Hdm.
  pose proof (Z.mod_pos_bound n (Zpos d) ltac:(lia)) as Hb.
  set (f := n / Zpos d) in *. set (r := n mod Zpos d) in *.
  assert (Hcase : forall z : Z,
             2 * Zpos d * z - Zpos d <= 2 * n <= 2 * Zpos d * z + Zpos d ->
             (inject_Z z - (1 # 2) <= n # d <= inject_Z z + (1 # 2))%Q).
  { intros z Hz. unfold Qle, Qminus, Qplus, Qopp, inject_Z. cbn.
    change (Z.pos (1 * 2)) with 2. lia. }
  apply Hcase.
  destruct (Z.compare_spec (2 * r) (Zpos d)) as [E|E|E].
  - destruct (Z.even f); nia.
  - nia.
  - nia.
Qed.

(** A level of 0..255 scales to 0..100. *)
Lemma scale_bounds (b : Q) :
  (0 <= b <= 255)%Q -> (0 <= b / 255 * 100 <= 100)%Q.
Proof.
  destruct b as [n d]. unfold Qle, Qdiv, Qmult, Qinv. cbn.
  intros [H0 H1]. split; lia.
Qed.

Lemma py_int_inject (z : Z) : py_int (inject_Z z) = z.
Proof. unfold py_int. cbn. apply Z.quot_1_r. Qed.

(** On a value that is not negative [py_int] is the integer part. *)
Lemma py_int_nonneg (q : Q) :
  (0 <= q)%Q ->
  (inject_Z (py_int q) <= q)%Q /\ (q < inject_Z (py_int q) + 1)%Q.
Proof.
  destruct q as [n d]. unfold Qle, Qlt, py_int, Qplus, inject_Z. cbn. intros H.
  assert (Hn : 0 <= n) by lia.
  rewrite Z.quot_div_nonneg by lia.
  pose proof (Z.div_mod n (Zpos d) ltac:(lia)) as Hdm.
  pose proof (Z.mod_pos_bound n (Zpos d) ltac:(lia)) as Hb.
  split; nia.
Qed.

(** *** The values the tests record *)

Example test_light_brightness_values :
  map (brightness_pct STATE_ON) [255; 102; 0; 55.66; 108.4; 0.0; 127]%Q
  = [100; 40; 1; 22; 43; 1; 50].
Proof. reflexivity. Qed.

Example test_light_hs_values : hs_chars (4.5, 9.2)%Q = (4, 9).
Proof. reflexivity. Qed.

(** For the 256 integer levels the percentage is the half-up quotient,
    raised to 1 at level 0: no integer level scales to a tie. *)
Example brightness_pct_integer_levels :
  forallb (fun n => brightness_pct STATE_ON (inject_Z n)
                    =? Z.max 1 ((200 * n + 255) / 510))
          (map Z.of_nat (seq 0 256)) = true.
Proof. vm_compute. reflexivity. Qed.

(** *** State updates *)

(** C1: while the device is on, a brightness level [b] of 0..255 is shown
    as [round(b / 255 * 100)] whenever that is not 0, and as 1 when it is
    0, also for [b = 0] and for levels that are not whole numbers; so the
    percentage on the brightness characteristic is between 1 and 100 and
    never 0. *)
Theorem brightness_pct_while_on (b : Q) (acc : Light) (hs : option (Q * Q)) :
  (0 <= b <= 255)%Q ->
  let rounded := py_round (b / 255 * 100)%Q in
  let shown :=
    char_brightness
      (async_update_state
         {| state := STATE_ON; ATTR_BRIGHTNESS := Some b; ATTR_HS_COLOR := hs |}
         acc) in
  shown = brightness_pct STATE_ON b /\
  (rounded <> 0 -> shown = rounded) /\
  (rounded = 0 -> shown = 1) /\
  shown <> 0 /\
  1 <= shown <= 100.
Proof.
  intros Hb. cbv zeta.
  assert (Hshown : char_brightness
                     (async_update_state
                        {| state := STATE_ON; ATTR_BRIGHTNESS := Some b;
                           ATTR_HS_COLOR := hs |} acc)
                   = brightness_pct STATE_ON b).
  { unfold async_update_state. cbn [ATTR_BRIGHTNESS ATTR_HS_COLOR state].
    now destruct hs as [[h s]|]. }
  rewrite Hshown. unfold brightness_pct. cbn [is_on].
  pose proof (scale_bounds b Hb) as [Hlo Hhi].
  pose proof (py_round_ge _ 0 Hlo) as Hge.
  pose proof (py_round_le _ 100 Hhi) as Hle.
  destruct (Z.eqb_spec (py_round (b / 255 * 100)) 0) as [E|E]; cbn [andb];
    repeat split; intros; lia.
Qed.

Lemma brightness_pct_while_on_witness :
  (0 <= 0.4 <= 255)%Q /\
  char_brightness
    (async_update_state
       {| state := STATE_ON; ATTR_BRIGHTNESS := Some 0.4%Q; ATTR_HS_COLOR := None |}
       {| char_on := 0; char_brightness := 100; char_hue := 0;
          char_saturation := 0 |}) = 1.
Proof.
  split.
  - split; discriminate.
  - apply (brightness_pct_while_on 0.4%Q
             {| char_on := 0; char_brightness := 100; char_hue := 0;
                char_saturation := 0 |} None).
    + split; discriminate.
    + reflexivity.
Defined.

(** C7: hue and saturation reach the accessory as the integers truncated
    from the platform's pair, each component on its own and not scaled:
    a whole number goes through unchanged, and a value that is not
    negative is cut down to its integer part. *)
Theorem hue_saturation_truncated (h s : Q) (st : EntityState)
    (b : option Q) (acc : Light) :
  let acc' :=
    async_update_state
      {| state := st; ATTR_BRIGHTNESS := b; ATTR_HS_COLOR := Some (h, s) |} acc in
  char_hue acc' = py_int h /\
  char_saturation acc' = py_int s /\
  (forall z : Z, h == inject_Z z -> char_hue acc' = z)%Q /\
  (forall z : Z, s == inject_Z z -> char_saturation acc' = z)%Q /\
  (0 <= h -> inject_Z (char_hue acc') <= h < inject_Z (char_hue acc') + 1)%Q /\
  (0 <= s ->
   inject_Z (char_saturation acc') <= s < inject_Z (char_saturation acc') + 1)%Q.
Proof.
  cbv zeta. unfold async_update_state, hs_chars.
  cbn [ATTR_HS_COLOR fst snd char_hue char_saturation].
  assert (Hwhole : forall (q : Q) (z : Z), (q == inject_Z z)%Q -> py_int q = z).
  { intros [n d] z. unfold Qeq, py_int. cbn. intros Hq.
    replace n with (z * Z.pos d) by lia. apply Z.quot_mul. lia. }
  split; [reflexivity|]. split; [reflexivity|].
  split; [intros z Hz; now apply Hwhole|].
  split; [intros z Hz; now apply Hwhole|].
  split; intros Hq; now apply py_int_nonneg.
Qed.

Lemma hue_saturation_truncated_witness :
  let acc' :=
    async_update_state
      {| state := STATE_ON; ATTR_BRIGHTNESS := None;
         ATTR_HS_COLOR := Some (4.5, 9.2)%Q |}
      {| char_on := 1; char_brightness := 40; char_hue := 0;
         char_saturation := 0 |} in
  (char_hue acc' = 4 /\ char_saturation acc' = 9) /\
  (0 <= 4.5)%Q /\
  (inject_Z (char_hue acc') <= 4.5 < inject_Z (char_hue acc') + 1)%Q.
Proof.
  cbv zeta.
  pose proof (hue_saturation_truncated 4.5%Q 9.2%Q STATE_ON None
                {| char_on := 1; char_brightness := 40; char_hue := 0;
                   char_saturation := 0 |}) as H.
  cbv zeta in H. destruct H as (Hh & Hs & _ & _ & Hcut & _).
  split; [split; [exact Hh | exact Hs]|].
  split; [discriminate|]. apply Hcut. discriminate.
Defined.

(** *** Writes from the accessory protocol *)

Example test_set_on_with_brightness_20 :
  set_chars {| CHAR_ON := Some 1; CHAR_BRIGHTNESS := Some 20; CHAR_HUE := None;
               CHAR_SATURATION := None; CHAR_COLOR_TEMPERATURE := None |}
  = {| service := SERVICE_TURN_ON; ATTR_BRIGHTNESS_PCT := Some 20;
       ATTR_HS_COLOR_param := None; ATTR_COLOR_TEMP := None;
       ATTR_VALUE := "Set state to 1, brightness at 20%" |}.
Proof. reflexivity. Qed.

Example test_set_on_with_brightness_0 :
  set_chars {| CHAR_ON := Some 1; CHAR_BRIGHTNESS := Some 0; CHAR_HUE := None;
               CHAR_SATURATION := None; CHAR_COLOR_TEMPERATURE := None |}
  = {| service := SERVICE_TURN_OFF; ATTR_BRIGHTNESS_PCT := None;
       ATTR_HS_COLOR_param := None; ATTR_COLOR_TEMP := None;
       ATTR_VALUE := "Set state to 0, brightness at 0%" |}.
Proof. reflexivity. Qed.

Example test_set_brightness_and_color :
  set_chars {| CHAR_ON := Some 1; CHAR_BRIGHTNESS := Some 20; CHAR_HUE := Some 145;
               CHAR_SATURATION := Some 75; CHAR_COLOR_TEMPERATURE := None |}
  = {| service := SERVICE_TURN_ON; ATTR_BRIGHTNESS_PCT := Some 20;
       ATTR_HS_COLOR_param := Some (145, 75); ATTR_COLOR_TEMP := None;
       ATTR_VALUE := "Set state to 1, brightness at 20%, set color at (145, 75)" |}.
Proof. reflexivity. Qed.

Example test_set_brightness_and_color_temp :
  set_chars {| CHAR_ON := Some 1; CHAR_BRIGHTNESS := Some 20; CHAR_HUE := None;
               CHAR_SATURATION := None; CHAR_COLOR_TEMPERATURE := Some 250 |}
  = {| service := SERVICE_TURN_ON; ATTR_BRIGHTNESS_PCT := Some 20;
       ATTR_HS_COLOR_param := None; ATTR_COLOR_TEMP := Some 250;
       ATTR_VALUE := "Set state to 1, brightness at 20%, color temperature at 250" |}.
Proof. reflexivity. Qed.

Example test_set_off :
  set_chars {| CHAR_ON := Some 0; CHAR_BRIGHTNESS := None; CHAR_HUE := None;
               CHAR_SATURATION := None; CHAR_COLOR_TEMPERATURE := None |}
  = {| service := SERVICE_TURN_OFF; ATTR_BRIGHTNESS_PCT := None;
       ATTR_HS_COLOR_param := None; ATTR_COLOR_TEMP := None;
       ATTR_VALUE := "Set state to 0" |}.
Proof. reflexivity. Qed.

(** C10: a batch that writes brightness 0, whether or not it also writes
    on = 1 and whatever else it writes, is dispatched as [turn_off], and no
    brightness percentage is passed along; it is not a [turn_on] at 0%. *)
Theorem brightness_zero_turns_off (char_values : CharValues) :
  CHAR_BRIGHTNESS char_values = Some 0 ->
  service (set_chars char_values) = SERVICE_TURN_OFF /\
  ATTR_BRIGHTNESS_PCT (set_chars char_values) = None.
Proof.
  intros Hb. unfold set_chars. cbn [service ATTR_BRIGHTNESS_PCT].
  rewrite Hb. cbn. now rewrite orb_true_r.
Qed.

Lemma brightness_zero_turns_off_witness :
  let batch := {| CHAR_ON := Some 1; CHAR_BRIGHTNESS := Some 0; CHAR_HUE := None;
                  CHAR_SATURATION := None; CHAR_COLOR_TEMPERATURE := None |} in
  CHAR_ON batch = Some 1 /\
  CHAR_BRIGHTNESS batch = Some 0 /\
  service (set_chars batch) = SERVICE_TURN_OFF /\
  ATTR_BRIGHTNESS_PCT (set_chars batch) = None.
Proof.
  cbv zeta. split; [reflexivity|]. split; [reflexivity|].
  apply (brightness_zero_turns_off
           {| CHAR_ON := Some 1; CHAR_BRIGHTNESS := Some 0; CHAR_HUE := None;
              CHAR_SATURATION := None; CHAR_COLOR_TEMPERATURE := None |}).
  reflexivity.
Defined.

End HomekitLightFacts.

(** ** More facts about slicing and containment *)

Module PySliceFacts.

Lemma app_cons (c : ascii) (s t : string) : String c s +:+ t = String c (s +:+ t).
Proof. reflexivity. Qed.

Lemma prefix_spec (needle hay : string) :
  String.prefix needle hay = true <-> exists post, hay = needle +:+ post.
Proof.
  revert hay. induction needle as [|a needle IH]; intros hay.
  - split; [intros _; now exists hay | intros _; now destruct hay].
  - destruct hay as [|b hay]; cbn.
    + split; [discriminate | intros [post H]; discriminate H].
    + destruct (ascii_dec a b) as [->|Hne].
      * rewrite IH. split; intros [post H]; exists post.
        -- now rewrite app_cons, H.
        -- rewrite app_cons in H. now inversion H.
      * split; [discriminate|]. intros [post H]. rewrite app_cons in H.
        injection H as Hb _. now subst.
Qed.

Lemma str_contains_spec (needle hay : string) :
  str_contains needle hay = true <->
  exists pre post, hay = pre +:+ needle +:+ post.
Proof.
  induction hay as [|c hay IH].
  - cbn [str_contains]. rewrite orb_false_r, prefix_spec. split.
    + intros [post H]. now exists EmptyString, post.
    + intros (pre & post & H). destruct pre as [|p pre]; [now exists post|].
      rewrite app_cons in H. discriminate H.
  - cbn [str_contains]. rewrite orb_true_iff, prefix_spec, IH. split.
    + intros [[post H] | (pre & post & H)].
      * now exists EmptyString, post.
      * exists (String c pre), post. now rewrite app_cons, H.
    + intros (pre & post & H). destruct pre as [|p pre].
      * left. now exists post.
      * right. rewrite app_cons in H. inversion H. now exists pre, post.
Qed.

Lemma substring_0_length (n : nat) (s : string) :
  String.length (String.substring 0 n s) = Nat.min n (String.length s).
Proof.
  revert s. induction n as [|n IH]; intros [|c s]; cbn; try reflexivity.
  now rewrite IH.
Qed.

Lemma substring_0_twice (n m : nat) (s : string) :
  String.substring 0 n (String.substring 0 m s) = String.substring 0 (Nat.min n m) s.
Proof.
  revert m s. induction n as [|n IH]; intros [|m] [|c s]; cbn; try reflexivity.
  now rewrite IH.
Qed.

Lemma substring_0_prefix (n : nat) (s : string) :
  exists rest, s = String.substring 0 n s +:+ rest.
Proof.
  revert s. induction n as [|n IH]; intros [|c s]; cbn.
  - now exists EmptyString.
  - now exists (String c s).
  - now exists EmptyString.
  - destruct (IH s) as [rest H]. exists rest. now rewrite app_cons, <- H.
Qed.

Lemma slice_to_neg_twice (a b : nat) (s : string) :
  slice_to_neg a (slice_to_neg b s) = slice_to_neg (b + a) s.
Proof.
  unfold slice_to_neg. rewrite substring_0_length, substring_0_twice.
  f_equal. lia.
Qed.

End PySliceFacts.

(** ** The flow as a whole *)

Module EsphomeFlowFacts.
Import Esphome EsphomeInvariants PyFacts PySliceFacts EsphomeFacts.

(** Unfolding a step down to the state-passing primitives, and splitting on
    every branch it takes. *)
Ltac step_unfold :=
  repeat progress unfold run_step, handle_step, async_step_user, _async_step_user_base,
    async_step_discovery_confirm, async_step_authenticate,
    _async_authenticate_or_add, _set_user_input, fetch_device_info, try_login,
    _async_get_entry, user_form, authenticate_form, subscript, py_assert, bind,
    ret, raise, get_flow, put_flow, get_hass, put_hass.

Ltac step_cases :=
  step_unfold; cbn; repeat (case_match; cbn; simplify_eq/=); try done.

(** X3: the steps a user drives (user, discovery_confirm, authenticate)
    never touch the config entries or the integration's runtime data, and
    never set or change the flow's unique id, whatever they return or
    raise.  Only zeroconf discovery does. *)
Theorem user_driven_steps_frame (api : APIClient) (s : Step) (w : World) :
  is_user_driven s = true ->
  hass (snd (run_step api s w)) = hass w /\
  ctx_unique_id (context (flow (snd (run_step api s w)))) =
    ctx_unique_id (context (flow w)).
Proof.
  destruct s as [ui|d|ui|ui]; [|discriminate| |]; intros _; split; step_cases.
Qed.

Lemma user_driven_steps_frame_witness :
  let ui : gmap string pyval :=
    {[ CONF_HOST := VStr "192.168.1.6"; CONF_PORT := VInt 6053 ]} in
  let w := example_world [example_entry "e1" VNone "192.168.1.6"] in
  hass (snd (run_step example_api (StepUser (Some ui)) w)) = hass w /\
  ctx_unique_id (context (flow (snd (run_step example_api (StepUser (Some ui)) w))))
  = VNone.
Proof.
  cbv zeta.
  exact (user_driven_steps_frame example_api
           (StepUser (Some {[ CONF_HOST := VStr "192.168.1.6"; CONF_PORT := VInt 6053 ]}))
           (example_world [example_entry "e1" VNone "192.168.1.6"]) eq_refl).
Defined.


(** X4: every step keeps the title placeholders in line with the flow's
    name: if they are consistent before a step they are consistent after
    it, whatever the step returns or raises. *)
Theorem steps_keep_placeholders (api : APIClient) (s : Step) (w : World) :
  placeholders_consistent (flow w) ->
  placeholders_consistent (flow (snd (run_step api s w))).
Proof.
  unfold placeholders_consistent.
  destruct s as [ui|d|ui|ui]; intros Hinv.
  - revert Hinv. step_cases.
  - unfold run_step. rewrite async_step_zeroconf_run. cbv zeta.
    destruct (merge_first _ _ _); [exact Hinv|].
    destruct (backfill_first _ _ _); [exact Hinv|]. reflexivity.
  - revert Hinv. step_cases.
  - revert Hinv. step_cases.
Qed.

Lemma steps_keep_placeholders_witness :
  placeholders_consistent
    (flow (snd (run_step example_api (StepZeroconf example_discovery)
                  (example_world [])))).
Proof.
  apply (steps_keep_placeholders example_api (StepZeroconf example_discovery)
           (example_world [])).
  reflexivity.
Defined.

(** *** What a created entry holds *)

Ltac finish_complete :=
  intros [= <- <-]; unfold entry_data_of, _name in *;
  split; [|split];
  [ try discriminate; intros Hn; rewrite Hn in *; cbn in *; congruence
  | rewrite lookup_insert_eq; intros [= Hn]; rewrite Hn in *; cbn in *; congruence
  | rewrite lookup_insert_ne by discriminate; rewrite lookup_insert_eq;
    intros [= Hn]; rewrite Hn in *; cbn in *; congruence ].

(** X2: an entry is only ever created with a title, a host and a port
    that are not [None]: the assertions in [fetch_device_info],
    [try_login] and [_async_get_entry] stand in the way of anything
    else. *)
Theorem created_entry_complete (api : APIClient) (s : Step) (w : World)
    (title : pyval) (entry_data : gmap string pyval) :
  fst (run_step api s w) = Ret (CreateEntry title entry_data) ->
  title <> VNone /\
  entry_data !! CONF_HOST <> Some VNone /\
  entry_data !! CONF_PORT <> Some VNone.
Proof.
  destruct s as [ui|d|ui|ui].
  - step_cases. all: finish_complete.
  - unfold run_step. rewrite async_step_zeroconf_run. cbv zeta.
    destruct (merge_first _ _ _); [discriminate|].
    destruct (backfill_first _ _ _); discriminate.
  - step_cases. all: finish_complete.
  - step_cases. all: finish_complete.
Qed.

Lemma created_entry_complete_witness :
  VStr "kitchen" <> VNone /\
  (<[CONF_HOST := VStr "192.168.1.6"]>
     (<[CONF_PORT := VInt 6053]>
        (<[CONF_PASSWORD := VStr ""]> (∅ : gmap string pyval)))) !! CONF_HOST
  <> Some VNone /\
  (<[CONF_HOST := VStr "192.168.1.6"]>
     (<[CONF_PORT := VInt 6053]>
        (<[CONF_PASSWORD := VStr ""]> (∅ : gmap string pyval)))) !! CONF_PORT
  <> Some VNone.
Proof.
  apply (created_entry_complete example_api
           (StepUser (Some {[ CONF_HOST := VStr "192.168.1.6"; CONF_PORT := VInt 6053 ]}))
           (example_world []) (VStr "kitchen")).
  reflexivity.
Defined.


(** X1: when the user step reaches a device that uses no password, the
    entry is created at once, without an authenticate form: its title is
    the name the device reports, its data the host and port entered and
    [self._password or ""]. *)
Theorem passwordless_device_creates_entry (api : APIClient)
    (ui : gmap string pyval) (h p : pyval) (w : World) (info : DeviceInfo) :
  ui !! CONF_HOST = Some h -> ui !! CONF_PORT = Some p ->
  h <> VNone -> p <> VNone ->
  device_info_at api h p = inr info ->
  uses_password info = false ->
  run_step api (StepUser (Some ui)) w =
    (Ret (CreateEntry (VStr (name info))
            (<[CONF_HOST := h]>
               (<[CONF_PORT := p]>
                  (<[CONF_PASSWORD := py_or (_password (flow w)) (VStr "")]> ∅)))),
     with_flow w (_name_setter (VStr (name info)) (set_port p (set_host h (flow w))))).
Proof.
  intros Hh Hp Hh' Hp' Hinfo Huses.
  unfold run_step, handle_step.
  change (async_step_user api (Some ui)) with (_async_authenticate_or_add api (Some ui)).
  unfold _async_authenticate_or_add.
  erewrite bind_Ret by (apply _set_user_input_run; eassumption).
  erewrite bind_Ret by (apply fetch_device_info_run; assumption).
  cbn [flow with_flow set_port set_host _host _port]. rewrite Hinfo.
  erewrite bind_Ret by reflexivity. erewrite bind_Ret by reflexivity.
  rewrite Huses. rewrite _async_get_entry_run by discriminate. reflexivity.
Qed.

Lemma passwordless_device_creates_entry_witness :
  let ui : gmap string pyval :=
    {[ CONF_HOST := VStr "192.168.1.6"; CONF_PORT := VInt 6053 ]} in
  run_step example_api (StepUser (Some ui)) (example_world []) =
    (Ret (CreateEntry (VStr "kitchen")
            (<[CONF_HOST := VStr "192.168.1.6"]>
               (<[CONF_PORT := VInt 6053]>
                  (<[CONF_PASSWORD := VStr ""]> ∅)))),
     with_flow (example_world [])
       (_name_setter (VStr "kitchen")
          (set_port (VInt 6053) (set_host (VStr "192.168.1.6") __init__)))).
Proof.
  cbv zeta.
  assert (Hh : ({[ CONF_HOST := VStr "192.168.1.6"; CONF_PORT := VInt 6053 ]}
                : gmap string pyval) !! CONF_HOST = Some (VStr "192.168.1.6"))
    by reflexivity.
  assert (Hp : ({[ CONF_HOST := VStr "192.168.1.6"; CONF_PORT := VInt 6053 ]}
                : gmap string pyval) !! CONF_PORT = Some (VInt 6053))
    by reflexivity.
  exact (passwordless_device_creates_entry example_api _ _ _ (example_world [])
           {| name := "kitchen"; uses_password := false |}
           Hh Hp ltac:(discriminate) ltac:(discriminate) eq_refl eq_refl).
Defined.

(** X6: a user input without [host] raises [KeyError] and leaves the flow
    as it was; one with [host] but without [port] raises [KeyError] after
    the host has been stored; an authenticate input without [password]
    raises [KeyError] and leaves the flow as it was.  None of them
    depends on the network. *)
Theorem user_input_missing_key (api : APIClient) (ui : gmap string pyval) (w : World) :
  (ui !! CONF_HOST = None ->
   run_step api (StepUser (Some ui)) w = (Raise (KeyError CONF_HOST), w)) /\
  (forall h, ui !! CONF_HOST = Some h -> ui !! CONF_PORT = None ->
   run_step api (StepUser (Some ui)) w =
     (Raise (KeyError CONF_PORT), with_flow w (set_host h (flow w)))) /\
  (ui !! CONF_PASSWORD = None ->
   run_step api (StepAuthenticate (Some ui)) w = (Raise (KeyError CONF_PASSWORD), w)).
Proof.
  split; [|split].
  - intros H. step_unfold. now rewrite H.
  - intros h Hh Hp. step_unfold. now rewrite Hh, Hp.
  - intros H. step_unfold. now rewrite H.
Qed.

(** X7: while the flow has no host or no port, confirming a discovery
    fails the assertion of [fetch_device_info] and changes nothing, and
    submitting a password fails the assertion of [try_login] after the
    password has been stored.  Neither shows a form or creates an entry. *)
Theorem unset_host_or_port_asserts (api : APIClient) (ui : gmap string pyval)
    (pw : pyval) (w : World) :
  _host (flow w) = VNone \/ _port (flow w) = VNone ->
  run_step api (StepDiscoveryConfirm (Some ui)) w = (Raise AssertionError, w) /\
  (ui !! CONF_PASSWORD = Some pw ->
   run_step api (StepAuthenticate (Some ui)) w =
     (Raise AssertionError, with_flow w (set_password pw (flow w)))).
Proof.
  intros H. split.
  - step_unfold. cbn. destruct H as [-> | ->]; cbn; [reflexivity|].
    now destruct (is_not_none _).
  - intros Hpw. step_unfold. rewrite Hpw. cbn.
    destruct H as [-> | ->]; cbn; [reflexivity|]. now destruct (is_not_none _).
Qed.

Lemma unset_host_or_port_asserts_witness :
  run_step example_api (StepDiscoveryConfirm (Some ∅)) (example_world [])
  = (Raise AssertionError, example_world []).
Proof.
  exact (proj1 (unset_host_or_port_asserts example_api ∅ VNone (example_world [])
                  (or_introl eq_refl))).
Defined.


(** *** Zeroconf *)

Lemma merge_first_is_Some uid updates (es : list ConfigEntry) (e : ConfigEntry) :
  e ∈ es -> unique_id e = uid -> is_Some (merge_first uid updates es).
Proof.
  induction 1 as [e es|e e' es Hin IH]; intros He; cbn.
  - rewrite He, py_eq_refl. eauto.
  - destruct (py_eq (unique_id e') uid); [eauto|].
    destruct (IH He) as [l ->]. cbn. eauto.
Qed.

Lemma merge_first_one_change uid updates (es es' : list ConfigEntry) :
  merge_first uid updates es = Some es' ->
  exists i, forall j, j <> i -> es' !! j = es !! j.
Proof.
  revert es'. induction es as [|e es IH]; intros es' H; [discriminate|].
  cbn in H. destruct (py_eq (unique_id e) uid).
  - inversion H. exists 0%nat. now intros [|j] Hj.
  - destruct (merge_first uid updates es) as [l|]; [|discriminate].
    inversion H. destruct (IH l eq_refl) as [i Hi].
    exists (S i). intros [|j] Hj; [reflexivity|]. cbn. apply Hi. lia.
Qed.

Lemma backfill_first_one_change h d (es es' : list ConfigEntry) :
  backfill_first h d es = Some es' ->
  exists i, forall j, j <> i -> es' !! j = es !! j.
Proof.
  revert es'. induction es as [|e es IH]; intros es' H; [discriminate|].
  cbn in H. destruct (already_configured h d e).
  - inversion H. exists 0%nat. now intros [|j] Hj.
  - destruct (backfill_first h d es) as [l|]; [|discriminate].
    inversion H. destruct (IH l eq_refl) as [i Hi].
    exists (S i). intros [|j] Hj; [reflexivity|]. cbn. apply Hi. lia.
Qed.

Lemma backfill_first_None h d (es : list ConfigEntry) :
  Forall (fun x => already_configured h d x = false) es ->
  backfill_first h d es = None.
Proof.
  induction 1 as [|x es Hx Hes IH]; cbn; [reflexivity|]. now rewrite Hx, IH.
Qed.

(** X8: the zeroconf step never raises and never creates an entry: it
    either aborts with [already_configured] or shows the confirmation
    form.  It keeps the runtime data and the entries' ids, and changes at
    most one entry. *)
Theorem zeroconf_outcomes (api : APIClient) (d : DiscoveryInfo) (w : World) :
  exists (r : FlowResult) (w' : World),
    run_step api (StepZeroconf d) w = (Ret r, w') /\
    (r = Abort "already_configured" \/
     r = Form "discovery_confirm" None ∅
           (Some {[ "name" := VStr (node_name_of d) ]})) /\
    domain_data (hass w') = domain_data (hass w) /\
    entry_id <$> config_entries (hass w') = entry_id <$> config_entries (hass w) /\
    exists i, forall j, j <> i ->
      config_entries (hass w') !! j = config_entries (hass w) !! j.
Proof.
  unfold run_step. rewrite async_step_zeroconf_run. cbv zeta.
  destruct (merge_first _ _ _) as [es'|] eqn:Hmerge.
  - do 2 eexists. split; [reflexivity|]. split; [now left|]. split; [reflexivity|].
    split; [exact (merge_first_ids _ _ _ _ Hmerge)|].
    exact (merge_first_one_change _ _ _ _ Hmerge).
  - destruct (backfill_first _ _ _) as [es'|] eqn:Hfill.
    + do 2 eexists. split; [reflexivity|]. split; [now left|]. split; [reflexivity|].
      split; [exact (backfill_first_ids _ _ _ _ Hfill)|].
      exact (backfill_first_one_change _ _ _ _ Hfill).
    + do 2 eexists. split; [reflexivity|]. split; [now right|].
      split; [reflexivity|]. split; [reflexivity|]. now exists 0%nat.
Qed.

(** X9: the zeroconf step aborts exactly when some entry carries the node
    name as unique id or is recognised by the loop as configured for the
    device.  Otherwise it shows the confirmation form, leaves the entries
    alone, and the flow takes over unique id, host, port and name from the
    discovery. *)
Theorem zeroconf_aborts_iff (api : APIClient) (d : DiscoveryInfo) (w : World) :
  let known (e : ConfigEntry) :=
    unique_id e = VStr (node_name_of d) \/ already_configured (hass w) d e = true in
  (Exists known (config_entries (hass w)) ->
   fst (run_step api (StepZeroconf d) w) = Ret (Abort "already_configured")) /\
  (~ Exists known (config_entries (hass w)) ->
   run_step api (StepZeroconf d) w =
     (Ret (Form "discovery_confirm" None ∅
             (Some {[ "name" := VStr (node_name_of d) ]})),
      with_flow w (discovered d (flow w)))).
Proof.
  cbv zeta. unfold run_step. rewrite async_step_zeroconf_run. cbv zeta. split.
  - intros Hex. apply Exists_exists in Hex. destruct Hex as (e & Hin & [He|He]).
    + destruct (merge_first_is_Some _ {[ CONF_HOST := VStr (host d) ]} _ _ Hin He)
        as [es' ->]. reflexivity.
    + destruct (merge_first _ _ _); [reflexivity|].
      destruct (backfill_first_is_Some _ _ _ _ Hin He) as [es' ->]. reflexivity.
  - intros Hnot. apply not_Exists_Forall in Hnot; [|intros e; cbv beta;
      destruct (decide (unique_id e = VStr (node_name_of d)));
      destruct (already_configured (hass w) d e); [left; auto ..|right; intros [?|?]; congruence]].
    assert (Huid : Forall (fun x => unique_id x <> VStr (node_name_of d))
                     (config_entries (hass w))).
    { eapply Forall_impl; [exact Hnot|]. intros e He Hu. apply He. now left. }
    assert (Hconf : Forall (fun x => already_configured (hass w) d x = false)
                      (config_entries (hass w))).
    { eapply Forall_impl; [exact Hnot|]. intros e He. unfold compose in He.
      destruct (already_configured (hass w) d e); [|reflexivity].
      exfalso. apply He. now right. }
    now rewrite (merge_first_None _ _ _ Huid), (backfill_first_None _ _ _ Hconf).
Qed.


(** X11: discovery followed by confirmation.  When nothing is configured
    for the discovered node and the device at the discovered host and port
    uses no password, confirming creates the entry with the discovered
    host and port.  Its title is the name the device reports, while the
    flow's unique id stays the node name of the discovery; the existing
    entries are untouched. *)
Theorem discovered_device_entry (api : APIClient) (d : DiscoveryInfo) (w : World)
    (ui : gmap string pyval) (info : DeviceInfo) :
  Forall (fun x => unique_id x <> VStr (node_name_of d)) (config_entries (hass w)) ->
  Forall (fun x => already_configured (hass w) d x = false) (config_entries (hass w)) ->
  device_info_at api (VStr (host d)) (VInt (port d)) = inr info ->
  uses_password info = false ->
  let w1 := snd (run_step api (StepZeroconf d) w) in
  let w2 := with_flow w (_name_setter (VStr (name info)) (discovered d (flow w))) in
  run_step api (StepDiscoveryConfirm (Some ui)) w1 =
    (Ret (CreateEntry (VStr (name info))
            (<[CONF_HOST := VStr (host d)]>
               (<[CONF_PORT := VInt (port d)]>
                  (<[CONF_PASSWORD := py_or (_password (flow w)) (VStr "")]> ∅)))),
     w2) /\
  ctx_unique_id (context (flow w2)) = VStr (node_name_of d) /\
  hass w2 = hass w.
Proof.
  intros Huid Hconf Hinfo Huses. cbv zeta.
  unfold run_step at 2. rewrite async_step_zeroconf_run. cbv zeta.
  rewrite (merge_first_None _ _ _ Huid), (backfill_first_None _ _ _ Hconf).
  cbn [snd]. split; [|split; reflexivity].
  unfold run_step, handle_step.
  change (async_step_discovery_confirm api (Some ui))
    with (_async_authenticate_or_add api None).
  unfold _async_authenticate_or_add.
  erewrite bind_Ret by reflexivity.
  erewrite bind_Ret by (apply fetch_device_info_run; discriminate).
  cbn [flow with_flow discovered _name_setter set_context set_port set_host
         _host _port].
  rewrite Hinfo.
  erewrite bind_Ret by reflexivity. erewrite bind_Ret by reflexivity.
  rewrite Huses. rewrite _async_get_entry_run by discriminate. reflexivity.
Qed.

Lemma discovered_device_entry_witness :
  let w1 := snd (run_step example_api (StepZeroconf example_discovery_kitchen)
                   (example_world [])) in
  run_step example_api (StepDiscoveryConfirm (Some ∅)) w1 =
    (Ret (CreateEntry (VStr "kitchen")
            (<[CONF_HOST := VStr "192.168.1.6"]>
               (<[CONF_PORT := VInt 6053]>
                  (<[CONF_PASSWORD := VStr ""]> ∅)))),
     with_flow (example_world [])
       (_name_setter (VStr "kitchen")
          (discovered example_discovery_kitchen __init__))).
Proof.
  cbv zeta.
  exact (proj1 (discovered_device_entry example_api example_discovery_kitchen
                  (example_world []) ∅
                  {| name := "kitchen"; uses_password := false |}
                  (Forall_nil_2 _) (Forall_nil_2 _) eq_refl eq_refl)).
Defined.

(** X12: when the device of a confirmed discovery cannot be reached, the
    flow falls back to the user form, not the confirmation form, with the
    error category under [base] and the discovered host and port filled in
    as defaults. *)
Theorem failed_confirmation_shows_user_form (api : APIClient) (d : DiscoveryInfo)
    (w : World) (ui : gmap string pyval) (message : string) :
  Forall (fun x => unique_id x <> VStr (node_name_of d)) (config_entries (hass w)) ->
  Forall (fun x => already_configured (hass w) d x = false) (config_entries (hass w)) ->
  host d <> EmptyString ->
  port d <> 0 ->
  device_info_at api (VStr (host d)) (VInt (port d)) = inl message ->
  let w1 := snd (run_step api (StepZeroconf d) w) in
  run_step api (StepDiscoveryConfirm (Some ui)) w1 =
    (Ret (Form "user"
            (Some [Required CONF_HOST (Some (VStr (host d)));
                   Optional CONF_PORT (Some (VInt (port d)))])
            {[ "base" := error_category message ]} None), w1).
Proof.
  intros Huid Hconf Hhost Hport Hfail. cbv zeta.
  unfold run_step at 2 3. rewrite async_step_zeroconf_run. cbv zeta.
  rewrite (merge_first_None _ _ _ Huid), (backfill_first_None _ _ _ Hconf).
  cbn [snd].
  rewrite (discovery_confirm_connection_failure api ui _ message);
    [| discriminate | discriminate | exact Hfail].
  unfold user_schema, py_or. cbn [flow with_flow discovered _name_setter
    set_context set_port set_host _host _port truthy].
  destruct (String.eqb_spec (host d) EmptyString) as [E|_]; [contradiction|].
  destruct (Z.eqb_spec (port d) 0) as [E|_]; [contradiction|]. reflexivity.
Qed.

Lemma failed_confirmation_shows_user_form_witness :
  let w1 := snd (run_step example_api (StepZeroconf example_discovery_lost)
                   (example_world [])) in
  run_step example_api (StepDiscoveryConfirm (Some ∅)) w1 =
    (Ret (Form "user"
            (Some [Required CONF_HOST (Some (VStr "192.168.1.99"));
                   Optional CONF_PORT (Some (VInt 6053))])
            {[ "base" := "resolve_error"%string ]} None), w1).
Proof.
  cbv zeta.
  exact (failed_confirmation_shows_user_form example_api example_discovery_lost
           (example_world []) ∅ "Error resolving IP address"
           (Forall_nil_2 _) (Forall_nil_2 _)
           ltac:(discriminate) ltac:(discriminate) eq_refl).
Defined.


(** *** A discovery seen twice *)

Lemma already_configured_domain (h h' : HomeAssistant) (d : DiscoveryInfo)
    (e : ConfigEntry) :
  domain_data h = domain_data h' ->
  already_configured h d e = already_configured h' d e.
Proof.
  intros H. unfold already_configured, is_entry_loaded, get_entry_data.
  now rewrite H.
Qed.

Lemma backfill_first_domain (h h' : HomeAssistant) (d : DiscoveryInfo)
    (es : list ConfigEntry) :
  domain_data h = domain_data h' -> backfill_first h d es = backfill_first h' d es.
Proof.
  intros H. induction es as [|e es IH]; cbn; [reflexivity|].
  now rewrite (already_configured_domain h h' d e H), IH.
Qed.

Lemma update_host_twice (d : DiscoveryInfo) (uid : option pyval) (e : ConfigEntry) :
  update_entry (Some ({[ CONF_HOST := VStr (host d) ]} ∪
                      data (update_entry (Some ({[ CONF_HOST := VStr (host d) ]}
                                                ∪ data e)) uid e)))
    None (update_entry (Some ({[ CONF_HOST := VStr (host d) ]} ∪ data e)) uid e)
  = update_entry (Some ({[ CONF_HOST := VStr (host d) ]} ∪ data e)) uid e.
Proof.
  unfold update_entry. cbn [data entry_id unique_id default].
  f_equal. rewrite <- !insert_union_singleton_l. apply insert_insert_eq.
Qed.

Lemma merge_first_idem (d : DiscoveryInfo) (uid : pyval) (es es' : list ConfigEntry) :
  merge_first uid {[ CONF_HOST := VStr (host d) ]} es = Some es' ->
  merge_first uid {[ CONF_HOST := VStr (host d) ]} es' = Some es'.
Proof.
  revert es'. induction es as [|e es IH]; intros es' H; [discriminate|].
  cbn in H. destruct (py_eq (unique_id e) uid) eqn:E.
  - inversion H. cbn [merge_first update_entry unique_id default]. rewrite E.
    f_equal. f_equal. apply (update_host_twice d None e).
  - destruct (merge_first uid _ es) as [l|]; [|discriminate].
    inversion H. cbn [merge_first]. rewrite E, (IH l eq_refl). reflexivity.
Qed.

Lemma backfill_then_again (h : HomeAssistant) (d : DiscoveryInfo)
    (es es' : list ConfigEntry) :
  merge_first (VStr (node_name_of d)) {[ CONF_HOST := VStr (host d) ]} es = None ->
  backfill_first h d es = Some es' ->
  merge_first (VStr (node_name_of d)) {[ CONF_HOST := VStr (host d) ]} es' = Some es'
  \/ (merge_first (VStr (node_name_of d)) {[ CONF_HOST := VStr (host d) ]} es' = None
      /\ backfill_first h d es' = Some es').
Proof.
  revert es'. induction es as [|e es IH]; intros es' Hm Hb; [discriminate|].
  cbn in Hm, Hb. destruct (py_eq (unique_id e) _) eqn:E; [discriminate|].
  destruct (merge_first _ _ es) as [l|] eqn:Hrest; [discriminate|].
  destruct (already_configured h d e) eqn:Hconf.
  - inversion Hb. unfold backfill. destruct (negb (truthy (unique_id e))) eqn:Et.
    + left. cbn [merge_first update_entry unique_id default]. rewrite py_eq_refl.
      f_equal. f_equal. rewrite insert_union_singleton_l.
      apply (update_host_twice d (Some (VStr (node_name_of d))) e).
    + right. cbn [merge_first backfill_first]. rewrite E, Hrest, Hconf.
      split; [reflexivity|]. unfold backfill. now rewrite Et.
  - destruct (backfill_first h d es) as [l|]; [|discriminate].
    inversion Hb. destruct (IH l eq_refl eq_refl) as [Hl | [Hl1 Hl2]].
    + left. cbn [merge_first]. now rewrite E, Hl.
    + right. cbn [merge_first backfill_first]. now rewrite E, Hl1, Hconf, Hl2.
Qed.

(** X10: seeing the same discovery again changes nothing more.  After one
    zeroconf step, a second one for the same discovery, from whatever flow
    handler, leaves the entries and runtime data as the first left them;
    and if the first aborted, so does the second. *)
Theorem zeroconf_twice (api : APIClient) (d : DiscoveryInfo) (w : World)
    (f : EsphomeFlowHandler) :
  let w1 := snd (run_step api (StepZeroconf d) w) in
  let again := run_step api (StepZeroconf d) (with_flow w1 f) in
  hass (snd again) = hass w1 /\
  (fst (run_step api (StepZeroconf d) w) = Ret (Abort "already_configured") ->
   fst again = Ret (Abort "already_configured")).
Proof.
  cbv zeta. unfold run_step. rewrite !async_step_zeroconf_run. cbv zeta.
  destruct (merge_first _ _ (config_entries (hass w))) as [es1|] eqn:Hm.
  - cbn [snd fst hass with_entries with_flow config_entries].
    rewrite (merge_first_idem d _ _ _ Hm). split; reflexivity.
  - destruct (backfill_first (hass w) d (config_entries (hass w))) as [es1|] eqn:Hb.
    + cbn [snd fst hass with_entries with_flow config_entries].
      destruct (backfill_then_again _ _ _ _ Hm Hb) as [Hl | [Hl1 Hl2]].
      * rewrite Hl. split; reflexivity.
      * rewrite Hl1.
        rewrite (backfill_first_domain
                   {| config_entries := es1; domain_data := domain_data (hass w) |}
                   (hass w) d es1 eq_refl), Hl2.
        split; reflexivity.
    + cbn [snd fst hass with_flow]. rewrite Hm, Hb. cbn [snd hass with_flow].
      split; [reflexivity | discriminate].
Qed.


(** X5: the forms the flow can show and the errors on them.  The user
    form carries no error, [resolve_error] or [connection_error], and no
    placeholders; the authenticate form carries no error or
    [invalid_auth]; the confirmation form carries no schema and no error.
    No step shows anything else. *)
Theorem shown_forms (api : APIClient) (s : Step) (w : World) (step_id : string)
    (schema : option (list SchemaField)) (errors : gmap string string)
    (placeholders : option (gmap string pyval)) :
  fst (run_step api s w) = Ret (Form step_id schema errors placeholders) ->
  (step_id = "user" /\ placeholders = None /\
   (errors = ∅ \/ errors = {[ "base" := "resolve_error"%string ]}
    \/ errors = {[ "base" := "connection_error"%string ]}))
  \/ (step_id = "authenticate" /\
      (errors = ∅ \/ errors = {[ "base" := "invalid_auth"%string ]}))
  \/ (step_id = "discovery_confirm" /\ schema = None /\ errors = ∅).
Proof.
  destruct s as [ui|d|ui|ui].
  - step_cases; intros [= <- <- <- <-]; auto 10.
  - unfold run_step. rewrite async_step_zeroconf_run. cbv zeta.
    destruct (merge_first _ _ _); [discriminate|].
    destruct (backfill_first _ _ _); [discriminate|].
    intros [= <- <- <- <-]. auto 10.
  - step_cases; intros [= <- <- <- <-]; auto 10.
  - step_cases; intros [= <- <- <- <-]; auto 10.
Qed.

Lemma shown_forms_witness :
  ("user" = "user" /\ (None : option (gmap string pyval)) = None /\
   ((∅ : gmap string string) = ∅
    \/ (∅ : gmap string string) = {[ "base" := "resolve_error"%string ]}
    \/ (∅ : gmap string string) = {[ "base" := "connection_error"%string ]}))
  \/ ("user" = "authenticate" /\
      ((∅ : gmap string string) = ∅
       \/ (∅ : gmap string string) = {[ "base" := "invalid_auth"%string ]}))
  \/ ("user" = "discovery_confirm" /\ Some (user_schema __init__) = None /\
      (∅ : gmap string string) = ∅).
Proof.
  apply (shown_forms example_api (StepUser None) (example_world []) "user"
           (Some (user_schema __init__)) ∅ None).
  reflexivity.
Defined.

(** *** Host names and error texts *)

(** X13: for any host name, whatever its ending, the node name is the
    host name without its last seven characters: a prefix of the host
    name, and empty when the host name has seven characters or fewer. *)
Theorem node_name_any_hostname (d : DiscoveryInfo) :
  node_name_of d =
    String.substring 0 (String.length (hostname d) - 7) (hostname d) /\
  String.length (node_name_of d) = (String.length (hostname d) - 7)%nat /\
  (exists rest, hostname d = node_name_of d +:+ rest) /\
  ((String.length (hostname d) <= 7)%nat -> node_name_of d = EmptyString).
Proof.
  assert (Hnode : node_name_of d =
                  String.substring 0 (String.length (hostname d) - 7) (hostname d)).
  { unfold node_name_of, local_name_of. now rewrite slice_to_neg_twice. }
  split; [exact Hnode|]. rewrite Hnode. split; [|split].
  - rewrite substring_0_length. lia.
  - apply substring_0_prefix.
  - intros Hshort. replace (String.length (hostname d) - 7)%nat with 0%nat by lia.
    now destruct (hostname d).
Qed.

(** X14: an error message is classified [resolve_error] exactly when
    [resolving] occurs somewhere in it, and [connection_error] exactly when
    it does not. *)
Theorem error_category_spec (message : string) :
  (error_category message = "resolve_error" <->
   exists pre post, message = pre +:+ "resolving" +:+ post) /\
  (error_category message = "connection_error" <->
   ~ exists pre post, message = pre +:+ "resolving" +:+ post).
Proof.
  unfold error_category. rewrite <- str_contains_spec.
  destruct (str_contains "resolving" message); split; split;
    try discriminate; try reflexivity; intros H; try discriminate;
    exfalso; apply H; reflexivity.
Qed.

End EsphomeFlowFacts.

(** ** Facts about the MySensors fixtures *)

Module MySensorsFacts.
Import MySensors.

(** X15: when the loaded state has a node 1, the sensor fixture hands out
    that node and the shared dict holds it under 1; a gateway started
    afterwards has it under 1 whatever it held before.  Nodes registered
    earlier under ids the state does not use stay. *)
Theorem sensor_fixture_registers {Sensor : Type}
    (gateway_nodes sensor_state gateway_sensors : gmap Z Sensor) (node : Sensor) :
  sensor_state !! 1 = Some node ->
  let out := gps_sensor Sensor gateway_nodes sensor_state in
  fst out = Ok node /\
  snd out !! 1 = Some node /\
  mock_start_persistence Sensor (snd out) gateway_sensors !! 1 = Some node /\
  (forall k, sensor_state !! k = None -> snd out !! k = gateway_nodes !! k).
Proof.
  intros Hnode. cbv zeta. unfold gps_sensor, sensor_fixture, update_gateway_nodes,
    mock_start_persistence. rewrite Hnode. cbn [fst snd].
  assert (H1 : (sensor_state ∪ gateway_nodes) !! 1 = Some node)
    by now apply lookup_union_Some_l.
  repeat split; [exact H1 | now apply lookup_union_Some_l |].
  intros k Hk. now apply lookup_union_r.
Qed.

Lemma sensor_fixture_registers_witness :
  let out := gps_sensor string {[ 1 := "old"%string; 7 := "other"%string ]}
               {[ 1 := "gps"%string ]} in
  fst out = Ok "gps"%string /\
  snd out !! 1 = Some "gps"%string /\
  mock_start_persistence string (snd out) {[ 1 := "stale"%string ]} !! 1
  = Some "gps"%string /\
  (forall k, ({[ 1 := "gps"%string ]} : gmap Z string) !! k = None ->
             snd out !! k
             = ({[ 1 := "old"%string; 7 := "other"%string ]} : gmap Z string) !! k).
Proof.
  cbv zeta.
  apply (sensor_fixture_registers
           ({[ 1 := "old"%string; 7 := "other"%string ]} : gmap Z string)
           {[ 1 := "gps"%string ]} {[ 1 := "stale"%string ]} "gps"%string).
  reflexivity.
Defined.

(** X16: when the loaded state has no node 1, the sensor fixture raises
    [KeyError(1)], even if the shared dict had a node 1 before, and by
    then every node of the state is registered in the shared dict. *)
Theorem sensor_fixture_missing_node {Sensor : Type}
    (gateway_nodes sensor_state : gmap Z Sensor) :
  sensor_state !! 1 = None ->
  power_sensor Sensor gateway_nodes sensor_state =
    (KeyError 1, sensor_state ∪ gateway_nodes) /\
  (forall k node, sensor_state !! k = Some node ->
     snd (power_sensor Sensor gateway_nodes sensor_state) !! k = Some node).
Proof.
  intros Hnone. unfold power_sensor, sensor_fixture, update_gateway_nodes.
  rewrite Hnone. split; [reflexivity|].
  intros k node Hk. now apply lookup_union_Some_l.
Qed.

Lemma sensor_fixture_missing_node_witness :
  power_sensor string {[ 1 := "old"%string ]} {[ 2 := "power"%string ]} =
    (KeyError 1, {[ 2 := "power"%string ]} ∪ {[ 1 := "old"%string ]}).
Proof.
  exact (proj1 (sensor_fixture_missing_node
                  ({[ 1 := "old"%string ]} : gmap Z string)
                  {[ 2 := "power"%string ]} eq_refl)).
Defined.

(** X17: two sensor fixtures in one test share the dict.  After the gps
    and then the power fixture, a node id holds the power state's node if
    it has one, else the gps state's, else what was there before; so the
    power node 1 replaces the gps node 1. *)
Theorem later_fixture_wins {Sensor : Type}
    (gateway_nodes gps_state power_state : gmap Z Sensor) :
  let shared := snd (power_sensor Sensor
                       (snd (gps_sensor Sensor gateway_nodes gps_state))
                       power_state) in
  forall k,
    shared !! k =
    match power_state !! k with
    | Some node => Some node
    | None =>
        match gps_state !! k with
        | Some node => Some node
        | None => gateway_nodes !! k
        end
    end.
Proof.
  cbv zeta. intros k. unfold power_sensor, gps_sensor, sensor_fixture,
    update_gateway_nodes. cbn [snd].
  rewrite !lookup_union. destruct (power_state !! k), (gps_state !! k),
    (gateway_nodes !! k); reflexivity.
Qed.

End MySensorsFacts.
